(** * The Ollama adapter of kirara_ai: request and response mapping

    A shallow embedding of
    [kirara_ai/plugins/llm_preset_adapters/ollama_adapter.py].

    The adapter is dynamically typed glue code: it reads a decoded JSON
    document with subscripts, [.get], truth tests and [for] loops, and it
    builds a JSON document out of a validated request.  The embedding
    therefore has three layers:

    - Python values and the few operations the adapter applies to them,
      with the exception each operation raises on a value of another kind;
    - the pydantic classes the adapter reads and builds, as records and an
      inductive type of content parts;
    - the adapter's functions, in an error monad, and [chat] and
      [auto_detect_models] with the HTTP exchange as an explicit trace. *)

From Stdlib Require Import List String Ascii ZArith Bool Lia.
Import ListNotations.
Local Open Scope string_scope.
Local Open Scope list_scope.
Local Open Scope Z_scope.

(** ** Python values *)

(** What [response.json()] returns and what [requests.post(json=...)]
    takes.  Numbers are the integers: the backend's token counts are
    integers, and the sampling parameters are carried into the payload
    unchanged.  A dict keeps its insertion order. *)
#[warnings="-register-all"]
Inductive value : Type :=
| VNone
| VBool (b : bool)
| VInt (n : Z)
| VStr (s : string)
| VList (items : list value)
| VDict (fields : list (string * value)).

(** The exceptions of the adapter.  [Raised] stands for an exception of a
    collaborator (HTTP client, media manager), named by its class or its
    message. *)
Inductive exn : Type :=
| KeyError (key : string)
| TypeError
| AttributeError
| ValidationError
| Raised (msg : string).

Inductive result (A : Type) : Type :=
| Ok (a : A)
| Raise (e : exn).

Arguments Ok {A} a.
Arguments Raise {A} e.

Definition bind {A B : Type} (c : result A) (k : A -> result B) : result B :=
  match c with
  | Ok a => k a
  | Raise e => Raise e
  end.

Notation "x <- c ;; k" := (bind c (fun x => k))
  (at level 61, c at next level, right associativity).

Notation "c ;;; k" := (bind c (fun _ => k))
  (at level 61, right associativity).

(** A comprehension or a [for] loop whose body only builds a value: the
    items are visited in order and the first exception ends the loop. *)
Fixpoint for_each {A B : Type} (body : A -> result B) (l : list A)
  : result (list B) :=
  match l with
  | [] => Ok []
  | a :: l' =>
      b <- body a ;;
      bs <- for_each body l' ;;
      Ok (b :: bs)
  end.

(** A [for] loop whose body updates local variables [s]. *)
Fixpoint for_loop {S A : Type} (body : S -> A -> result S) (l : list A) (s : S)
  : result S :=
  match l with
  | [] => Ok s
  | a :: l' =>
      s' <- body s a ;;
      for_loop body l' s'
  end.

(** ** Operations on values *)

Fixpoint lookup (k : string) (d : list (string * value)) : option value :=
  match d with
  | [] => None
  | (k', v) :: d' => if String.eqb k k' then Some v else lookup k d'
  end.

(** [v[k]] with a string key. *)
Definition getitem (v : value) (k : string) : result value :=
  match v with
  | VDict d =>
      match lookup k d with
      | Some x => Ok x
      | None => Raise (KeyError k)
      end
  | _ => Raise TypeError
  end.

(** [v.get(k, default)]: only a dict has the method. *)
Definition get (v : value) (k : string) (default : value) : result value :=
  match v with
  | VDict d =>
      Ok (match lookup k d with
          | Some x => x
          | None => default
          end)
  | _ => Raise AttributeError
  end.

(** The truth value of [v] in an [if]. *)
Definition truthy (v : value) : bool :=
  match v with
  | VNone => false
  | VBool b => b
  | VInt n => negb (n =? 0)
  | VStr s => negb (String.eqb s "")
  | VList l => negb (Nat.eqb (List.length l) 0)
  | VDict d => negb (Nat.eqb (List.length d) 0)
  end.

(** The items a [for] loop over [v] visits: the elements of a list, the
    keys of a dict, the characters of a string. *)
Definition iter (v : value) : result (list value) :=
  match v with
  | VList l => Ok l
  | VDict d => Ok (map (fun kv => VStr (fst kv)) d)
  | VStr s => Ok (map (fun c => VStr (String c EmptyString)) (list_ascii_of_string s))
  | _ => Raise TypeError
  end.

(** [a + b]: integers (a bool counts as 0 or 1), two strings, two lists. *)
Definition add (a b : value) : result value :=
  match a, b with
  | VInt x, VInt y => Ok (VInt (x + y))
  | VInt x, VBool y => Ok (VInt (x + Z.b2z y))
  | VBool x, VInt y => Ok (VInt (Z.b2z x + y))
  | VBool x, VBool y => Ok (VInt (Z.b2z x + Z.b2z y))
  | VStr x, VStr y => Ok (VStr (x ++ y)%string)
  | VList x, VList y => Ok (VList (x ++ y))
  | _, _ => Raise TypeError
  end.

(** [v is not None]. *)
Definition is_not_None (v : value) : bool :=
  match v with
  | VNone => false
  | _ => true
  end.

(** ** The classes of kirara_ai.llm.format *)

(** Modelled from the spec: the content part classes are declared in
    [kirara_ai.llm.format.message], outside this file.  A content part is
    one of text, image reference, tool call and tool result; the fields
    kept are the ones the adapter reads or passes. *)
Inductive LLMChatContentPart : Type :=
| LLMChatTextContent (text : string)
| LLMChatImageContent (media_id : string)
| LLMToolCallContent (name : string) (parameters : value)
| LLMToolResultContent (name : string) (content : value).

Definition is_text (part : LLMChatContentPart) : bool :=
  match part with LLMChatTextContent _ => true | _ => false end.

Definition is_tool_call (part : LLMChatContentPart) : bool :=
  match part with LLMToolCallContent _ _ => true | _ => false end.

Definition is_image (part : LLMChatContentPart) : bool :=
  match part with LLMChatImageContent _ => true | _ => false end.

(** Modelled from the spec: the text of a text part and the name of a
    tool call are strings; the classes are pydantic models, so a value of
    another kind is refused when the object is built. *)
Definition as_str (v : value) : result string :=
  match v with
  | VStr s => Ok s
  | _ => Raise ValidationError
  end.

(** The number a string of decimal digits writes, with an optional minus
    sign in front. *)
Definition digit_of (c : ascii) : option Z :=
  let n := Z.of_nat (nat_of_ascii c) in
  if (48 <=? n) && (n <=? 57) then Some (n - 48) else None.

Fixpoint digits (s : string) (acc : Z) : option Z :=
  match s with
  | EmptyString => Some acc
  | String c s' =>
      match digit_of c with
      | Some d => digits s' (10 * acc + d)
      | None => None
      end
  end.

Definition int_of_str (s : string) : option Z :=
  match s with
  | EmptyString => None
  | String "-" (String c s') => option_map Z.opp (digits (String c s') 0)
  | _ => digits s 0
  end.

(** Modelled from the spec: the token counts of the usage are integers.
    The class is a pydantic model and converts what it is given: an
    integer is kept, a boolean counts as 0 or 1, a string of decimal
    digits is read as its number, and a list or a dict is refused.  What
    pydantic reads out of other strings is not modelled: they are refused
    here, and no statement below rests on that. *)
Definition as_int (v : value) : result Z :=
  match v with
  | VInt n => Ok n
  | VBool b => Ok (Z.b2z b)
  | VStr s =>
      match int_of_str s with
      | Some n => Ok n
      | None => Raise ValidationError
      end
  | _ => Raise ValidationError
  end.

(** Modelled from the spec: the arguments of a tool call are an opaque
    structured value, declared as an optional dict: [None] and a dict are
    taken, any other value is refused. *)
Definition as_optional_dict (v : value) : result value :=
  match v with
  | VNone => Ok VNone
  | VDict d => Ok (VDict d)
  | _ => Raise ValidationError
  end.

(** Modelled from the spec: the name of a [Function] is an optional
    string. *)
Definition as_optional_str (v : value) : result (option string) :=
  match v with
  | VNone => Ok None
  | VStr s => Ok (Some s)
  | _ => Raise ValidationError
  end.

(** [LLMChatTextContent(text=v)] *)
Definition LLMChatTextContent_init (text : value) : result LLMChatContentPart :=
  s <- as_str text ;;
  Ok (LLMChatTextContent s).

(** [LLMToolCallContent(name=n, parameters=p)] *)
Definition LLMToolCallContent_init (name parameters : value)
  : result LLMChatContentPart :=
  s <- as_str name ;;
  p <- as_optional_dict parameters ;;
  Ok (LLMToolCallContent s p).

Module Function.
Record t : Type := { name : option string; arguments : value }.
End Function.

Module ToolCall.
Record t : Type := { function : Function.t }.
End ToolCall.

(** [Function(name=n, arguments=a)] *)
Definition Function_init (name arguments : value) : result Function.t :=
  s <- as_optional_str name ;;
  a <- as_optional_dict arguments ;;
  Ok {| Function.name := s; Function.arguments := a |}.

Module Usage.
Record t : Type :=
  { prompt_tokens : Z; completion_tokens : Z; total_tokens : Z }.
End Usage.

(** [Usage(prompt_tokens=p, completion_tokens=c, total_tokens=t)] *)
Definition Usage_init (p c t : value) : result Usage.t :=
  p' <- as_int p ;;
  c' <- as_int c ;;
  t' <- as_int t ;;
  Ok {| Usage.prompt_tokens := p';
        Usage.completion_tokens := c';
        Usage.total_tokens := t' |}.

Module Message.
Record t : Type :=
  { content : list LLMChatContentPart;
    role : string;
    finish_reason : string;
    tool_calls : option (list ToolCall.t) }.
End Message.

(** Modelled from the spec: [Message] is declared in
    [kirara_ai.llm.format.response], outside this file.  It is a chat
    message, and the validation of a chat message takes text parts and
    refuses a tool call part under the role "assistant", the only role
    the adapter builds it with.
    [Message(content=c, role=r, finish_reason=f, tool_calls=t)] *)
Definition Message_init (content : list LLMChatContentPart)
  (role finish_reason : string) (tool_calls : option (list ToolCall.t))
  : result Message.t :=
  if existsb is_tool_call content then Raise ValidationError
  else
    Ok {| Message.content := content;
          Message.role := role;
          Message.finish_reason := finish_reason;
          Message.tool_calls := tool_calls |}.

Module LLMChatResponse.
Record t : Type :=
  { model : value; message : Message.t; usage : Usage.t }.
End LLMChatResponse.

Module LLMChatMessage.
Record t : Type :=
  { role : string; content : list LLMChatContentPart }.
End LLMChatMessage.

(** A tool definition, by what [tool.model_dump()] returns. *)
Module Tool.
Record t : Type := { model_dump : value }.
End Tool.

(** The request.  An unset parameter is [VNone]; [tools] is an optional
    list. *)
Module LLMChatRequest.
Record t : Type :=
  { messages : list LLMChatMessage.t;
    model : value;
    temperature : value;
    top_p : value;
    max_tokens : value;
    stop : value;
    tools : option (list Tool.t) }.
End LLMChatRequest.

(** ** The response mapping *)

(** The body of the loop of [convert_llm_response]. *)
Definition tool_call_content (tool_call : value) : result LLMChatContentPart :=
  f <- getitem tool_call "function" ;;
  name <- getitem f "name" ;;
  f' <- getitem tool_call "function" ;;
  parameters <- get f' "arguments" VNone ;;
  LLMToolCallContent_init name parameters.

Definition convert_llm_response (response_data : value)
  : result (list LLMChatContentPart) :=
  message <- getitem response_data "message" ;;
  text <- get message "content" (VStr "") ;;
  part <- LLMChatTextContent_init text ;;
  let content := [part] in
  message <- getitem response_data "message" ;;
  cond <- get message "tool_calls" VNone ;;
  if truthy cond then
    message <- getitem response_data "message" ;;
    tool_calls <- getitem message "tool_calls" ;;
    items <- iter tool_calls ;;
    calls <- for_each tool_call_content items ;;
    Ok (content ++ calls)
  else
    Ok content.

(** The body of the loop of [resolve_tool_calls_form_content]. *)
Definition tool_call_entry (call : value) : result ToolCall.t :=
  f <- getitem call "function" ;;
  name <- getitem f "name" ;;
  f' <- getitem call "function" ;;
  arguments <- get f' "arguments" VNone ;;
  fn <- Function_init name arguments ;;
  Ok {| ToolCall.function := fn |}.

(** The first branch fills [calls] and then falls off the end of the
    function, which has no [return] there: the result is [None]. *)
Definition resolve_tool_calls_form_content (response_data : value)
  : result (option (list ToolCall.t)) :=
  message <- getitem response_data "message" ;;
  tool_calls <- get message "tool_calls" VNone ;;
  if truthy tool_calls then
    items <- iter tool_calls ;;
    calls <- for_each tool_call_entry items ;;
    Ok None
  else
    Ok None.

(** ** The request mapping *)

Module OllamaConfig.
Record t : Type := { api_base : string }.
Definition default : t := {| api_base := "http://localhost:11434" |}.
End OllamaConfig.

(** The media manager, by what
    [media_manager.get_media(media_id).get_base64()] gives for an
    identifier: the base64 payload, or an exception. *)
Definition MediaManager : Type := string -> result string.

Module OllamaAdapter.
Record t : Type := { config : OllamaConfig.t; media_manager : MediaManager }.
End OllamaAdapter.

Definition resolve_media_ids (media_ids : list string)
  (media_manager : MediaManager) : result (list string) :=
  for_each media_manager media_ids.

(** [d[k] = v] on a dict: the value of an existing key is replaced in
    place, a new key goes to the end. *)
Fixpoint dict_set (k : string) (v : value) (d : list (string * value))
  : list (string * value) :=
  match d with
  | [] => [(k, v)]
  | (k', v') :: d' =>
      if String.eqb k k' then (k', v) :: d' else (k', v') :: dict_set k v d'
  end.

(** [target[k] = v] with a string key: any target but a dict refuses it. *)
Definition setitem (target : value) (k : string) (v : value) : result value :=
  match target with
  | VDict d => Ok (VDict (dict_set k v d))
  | _ => Raise TypeError
  end.

(** [part.content] and [part.name], read in that order by the
    comprehension of the "tool" branch: only a tool result has both. *)
Definition tool_message (part : LLMChatContentPart) : result value :=
  match part with
  | LLMToolResultContent name content =>
      Ok (VDict [("role", VStr "tool"); ("content", content); ("name", VStr name)])
  | _ => Raise AttributeError
  end.

(** The local variables of the loop over the parts of one message, and
    the list [messages] it appends to. *)
Module Locals.
Record t : Type :=
  { text_content : string; images : list string; messages : list value }.
End Locals.

(** Lines 83 to 86, which the source has inside the loop over the parts:
    they run once for every part that is not a tool call.  With a
    non-empty [images] the media identifiers are resolved and the result
    is stored under a string key of [messages], which is a list. *)
Definition emit_message (self : OllamaAdapter.t) (role : string) (st : Locals.t)
  : result Locals.t :=
  let message :=
    VDict [("role", VStr role); ("content", VStr (Locals.text_content st))] in
  (if negb (Nat.eqb (List.length (Locals.images st)) 0) then
     resolved <- resolve_media_ids (Locals.images st)
                   (OllamaAdapter.media_manager self) ;;
     setitem (VList (Locals.messages st)) "images" (VList (map VStr resolved))
   else Ok VNone) ;;;
  Ok {| Locals.text_content := Locals.text_content st;
        Locals.images := Locals.images st;
        Locals.messages := Locals.messages st ++ [message] |}.

(** The body of [for part in msg.content] (lines 76 to 86). *)
Definition part_body (self : OllamaAdapter.t) (role : string) (st : Locals.t)
  (part : LLMChatContentPart) : result Locals.t :=
  match part with
  | LLMChatTextContent text =>
      emit_message self role
        {| Locals.text_content := (Locals.text_content st ++ text)%string;
           Locals.images := Locals.images st;
           Locals.messages := Locals.messages st |}
  | LLMChatImageContent media_id =>
      emit_message self role
        {| Locals.text_content := Locals.text_content st;
           Locals.images := Locals.images st ++ [media_id];
           Locals.messages := Locals.messages st |}
  | LLMToolCallContent _ _ => Ok st
  | LLMToolResultContent _ _ => emit_message self role st
  end.

(** The body of [for msg in req.messages] (lines 70 to 86). *)
Definition message_body (self : OllamaAdapter.t) (messages : list value)
  (msg : LLMChatMessage.t) : result (list value) :=
  if String.eqb (LLMChatMessage.role msg) "tool" then
    entries <- for_each tool_message (LLMChatMessage.content msg) ;;
    Ok (messages ++ entries)
  else
    st <- for_loop (part_body self (LLMChatMessage.role msg))
            (LLMChatMessage.content msg)
            {| Locals.text_content := "";
               Locals.images := [];
               Locals.messages := messages |} ;;
    Ok (Locals.messages st).

(** Lines 65 to 86: the [messages] array of the payload. *)
Definition convert_messages (self : OllamaAdapter.t) (req : LLMChatRequest.t)
  : result (list value) :=
  for_loop (message_body self) (LLMChatRequest.messages req) [].

Definition not_None_items (d : list (string * value)) : list (string * value) :=
  filter (fun kv => is_not_None (snd kv)) d.

(** Lines 88 to 106: the payload, with its [None] fields removed at the
    top level and inside ["options"]. *)
Definition request_data (req : LLMChatRequest.t) (messages : list value)
  : value :=
  let tools :=
    match LLMChatRequest.tools req with
    | Some (tool :: rest) => VList (map Tool.model_dump (tool :: rest))
    | _ => VNone
    end in
  let data :=
    [("model", LLMChatRequest.model req);
     ("messages", VList messages);
     ("stream", VBool false);
     ("options",
       VDict [("temperature", LLMChatRequest.temperature req);
              ("top_p", LLMChatRequest.top_p req);
              ("num_predict", LLMChatRequest.max_tokens req);
              ("stop", LLMChatRequest.stop req);
              ("tools", tools)])] in
  let data := not_None_items data in
  match lookup "options" data with
  | Some (VDict options) =>
      VDict (dict_set "options" (VDict (not_None_items options)) data)
  | _ => VDict data
  end.

(** ** The chat operation *)

(** An HTTP response, by what its methods and attributes give:
    [raise_for_status()] returns or raises the client's transport error
    for a non-success status, [text] is the raw body, [json()] decodes the
    body or raises. *)
Module Response.
Record t : Type :=
  { raise_for_status : option exn; text : string; json : result value }.
End Response.

(** Modelled from the spec: the HTTP client is outside this file.  The
    response [requests] gives for a status code, a body and what decoding
    the body gives: its [raise_for_status()] raises [HTTPError] for the
    statuses 400 to 599 and returns for every other status. *)
Definition requests_response (status_code : Z) (text : string)
  (json : result value) : Response.t :=
  {| Response.raise_for_status :=
       if (400 <=? status_code) && (status_code <? 600)
       then Some (Raised "HTTPError") else None;
     Response.text := text;
     Response.json := json |}.

(** What the adapter does to the outside: the requests it sends and the
    lines it prints. *)
Inductive event : Type :=
| Post (url : string) (json : value) (headers : list (string * string))
| HttpGet (url : string)
| Printed (line : string).

(** A computation with its trace. *)
Definition io (A : Type) : Type := list event * result A.

Definition io_bind {A B : Type} (c : io A) (k : A -> io B) : io B :=
  match c with
  | (tr, Ok a) => let (tr', r) := k a in (tr ++ tr', r)
  | (tr, Raise e) => (tr, Raise e)
  end.

Definition lift {A : Type} (r : result A) : io A := ([], r).

Definition emit {A : Type} (ev : event) (r : result A) : io A := ([ev], r).

Notation "x <~ c ;; k" := (io_bind c (fun x => k))
  (at level 61, c at next level, right associativity).

(** [try: body except Exception as e: handler(e)] *)
Definition try_except {A : Type} (body : result A) (handler : exn -> io A)
  : io A :=
  match body with
  | Ok a => lift (Ok a)
  | Raise e => handler e
  end.

(** The [return] expression of [chat] (lines 116 to 129): the arguments
    are evaluated from left to right, each object is built when its
    arguments are. *)
Definition chat_return (req : LLMChatRequest.t) (response_data : value)
  : result LLMChatResponse.t :=
  content <- convert_llm_response response_data ;;
  tool_calls <- resolve_tool_calls_form_content response_data ;;
  message <- Message_init content "assistant" "stop" tool_calls ;;
  prompt_tokens <- getitem response_data "prompt_eval_count" ;;
  completion_tokens <- getitem response_data "eval_count" ;;
  a <- getitem response_data "prompt_eval_count" ;;
  b <- getitem response_data "eval_count" ;;
  total_tokens <- add a b ;;
  usage <- Usage_init prompt_tokens completion_tokens total_tokens ;;
  Ok {| LLMChatResponse.model := LLMChatRequest.model req;
        LLMChatResponse.message := message;
        LLMChatResponse.usage := usage |}.

Section Transport.

(** [requests.post(url, json=data, headers=headers)] and the GET of an
    [aiohttp] session: the response, or the exception of a failed
    connection. *)
Variable requests_post :
  string -> value -> list (string * string) -> result Response.t.
Variable session_get : string -> result Response.t.

Definition chat_headers : list (string * string) :=
  [("Content-Type", "application/json")].

Definition chat_url (self : OllamaAdapter.t) : string :=
  (OllamaConfig.api_base (OllamaAdapter.config self) ++ "/api/chat")%string.

(** [chat].  The tracing decorator only observes the call and the event
    loop only runs [resolve_media_ids] to its result: both are left out. *)
Definition chat (self : OllamaAdapter.t) (req : LLMChatRequest.t)
  : io LLMChatResponse.t :=
  let api_url := chat_url self in
  let headers := chat_headers in
  messages <~ lift (convert_messages self req) ;;
  let data := request_data req messages in
  response <~ emit (Post api_url data headers)
                (requests_post api_url data headers) ;;
  response_data <~
    try_except
      (match Response.raise_for_status response with
       | Some e => Raise e
       | None => Response.json response
       end)
      (fun e =>
         emit (Printed ("API Response: " ++ Response.text response)%string)
           (Raise e)) ;;
  lift (chat_return req response_data).

Definition tags_url (self : OllamaAdapter.t) : string :=
  (OllamaConfig.api_base (OllamaAdapter.config self) ++ "/api/tags")%string.

Definition auto_detect_models (self : OllamaAdapter.t) : io (list value) :=
  let api_url := tags_url self in
  response <~ emit (HttpGet api_url) (session_get api_url) ;;
  lift
    (match Response.raise_for_status response with
     | Some e => Raise e
     | None =>
         response_data <- Response.json response ;;
         models <- getitem response_data "models" ;;
         tags <- iter models ;;
         for_each (fun tag => getitem tag "name") tags
     end).

End Transport.

(** ** Shapes of data *)

(** One entry of [tool_calls], with the name and the arguments the parts
    built from it carry: a dict whose ["function"] is a dict with a string
    ["name"] and with ["arguments"] absent, [None] or a dict. *)
Definition entry_of (entry : value) (name : string) (args : value) : Prop :=
  exists fields f,
    entry = VDict fields /\
    lookup "function" fields = Some (VDict f) /\
    lookup "name" f = Some (VStr name) /\
    args = match lookup "arguments" f with Some a => a | None => VNone end /\
    (args = VNone \/ exists d, args = VDict d).

(** The text of the entries a run of text parts produces, given the text
    gathered so far: one per part, each with all the text up to it. *)
Fixpoint running_texts (acc : string) (texts : list string) : list string :=
  match texts with
  | [] => []
  | t :: ts => (acc ++ t)%string :: running_texts (acc ++ t)%string ts
  end.

Definition backend_message (role text : string) : value :=
  VDict [("role", VStr role); ("content", VStr text)].

(** The ["options"] of the payload: the sampling parameters and the tool
    definitions that are set. *)
Definition request_options (req : LLMChatRequest.t) : list (string * value) :=
  not_None_items
    [("temperature", LLMChatRequest.temperature req);
     ("top_p", LLMChatRequest.top_p req);
     ("num_predict", LLMChatRequest.max_tokens req);
     ("stop", LLMChatRequest.stop req);
     ("tools",
       match LLMChatRequest.tools req with
       | Some (tool :: rest) => VList (map Tool.model_dump (tool :: rest))
       | _ => VNone
       end)].

(** ** Sample data *)

Module Sample.

Definition adapter : OllamaAdapter.t :=
  {| OllamaAdapter.config := OllamaConfig.default;
     OllamaAdapter.media_manager := fun media_id => Ok ("b64:" ++ media_id)%string |}.

Definition request (messages : list LLMChatMessage.t) : LLMChatRequest.t :=
  {| LLMChatRequest.messages := messages;
     LLMChatRequest.model := VStr "llama3";
     LLMChatRequest.temperature := VInt 1;
     LLMChatRequest.top_p := VNone;
     LLMChatRequest.max_tokens := VNone;
     LLMChatRequest.stop := VNone;
     LLMChatRequest.tools := None |}.

Definition user (parts : list LLMChatContentPart) : LLMChatMessage.t :=
  {| LLMChatMessage.role := "user"; LLMChatMessage.content := parts |}.

Definition weather_call : value :=
  VDict [("function",
          VDict [("name", VStr "get_weather");
                 ("arguments", VDict [("city", VStr "Paris")])])].

Definition time_call : value :=
  VDict [("function", VDict [("name", VStr "get_time")])].

(** [{"message": {"content": "", "tool_calls": [weather, time]},
      "prompt_eval_count": 5, "eval_count": 10}] *)
Definition two_calls : value :=
  VDict [("message",
          VDict [("content", VStr "");
                 ("tool_calls", VList [weather_call; time_call])]);
         ("prompt_eval_count", VInt 5);
         ("eval_count", VInt 10)].

(** [{"message": {"content": "hello"}, "prompt_eval_count": 5,
      "eval_count": 10}] *)
Definition plain : value :=
  VDict [("message", VDict [("content", VStr "hello")]);
         ("prompt_eval_count", VInt 5);
         ("eval_count", VInt 10)].

(** The same answer without [eval_count]. *)
Definition no_eval_count : value :=
  VDict [("message", VDict [("content", VStr "hello")]);
         ("prompt_eval_count", VInt 5)].

Definition answer (status : option exn) (body : string) (decoded : result value)
  : Response.t :=
  {| Response.raise_for_status := status;
     Response.text := body;
     Response.json := decoded |}.

(** A server that gives the same answer to every POST. *)
Definition replies (response : Response.t)
  : string -> value -> list (string * string) -> result Response.t :=
  fun _ _ _ => Ok response.

Definition hello : LLMChatRequest.t := request [user [LLMChatTextContent "hi"]].

(** [{"models": [{"name": "llama3"}]}] *)
Definition tags : value :=
  VDict [("models", VList [VDict [("name", VStr "llama3")]])].

(** The entry of [hello] in the payload. *)
Definition hello_entry : value :=
  VDict [("role", VStr "user"); ("content", VStr "hi")].

(** A server that answers every POST with [plain]. *)
Definition plain_server
  : string -> value -> list (string * string) -> result Response.t :=
  replies (answer None "" (Ok plain)).

(** A server that cannot be reached. *)
Definition unreachable
  : string -> value -> list (string * string) -> result Response.t :=
  fun _ _ _ => Raise (Raised "connection refused").

(** What [chat] returns for [hello] when the answer is [plain]. *)
Definition plain_response : LLMChatResponse.t :=
  {| LLMChatResponse.model := VStr "llama3";
     LLMChatResponse.message :=
       {| Message.content := [LLMChatTextContent "hello"];
          Message.role := "assistant";
          Message.finish_reason := "stop";
          Message.tool_calls := None |};
     LLMChatResponse.usage :=
       {| Usage.prompt_tokens := 5;
          Usage.completion_tokens := 10;
          Usage.total_tokens := 15 |} |}.

(** A request with every sampling parameter set and one tool. *)
Definition tuned : LLMChatRequest.t :=
  {| LLMChatRequest.messages := [user [LLMChatTextContent "hi"]];
     LLMChatRequest.model := VStr "llama3";
     LLMChatRequest.temperature := VInt 1;
     LLMChatRequest.top_p := VInt 1;
     LLMChatRequest.max_tokens := VInt 128;
     LLMChatRequest.stop := VList [VStr "END"];
     LLMChatRequest.tools :=
       Some [ {| Tool.model_dump := VDict [("name", VStr "get_time")] |} ] |}.

(** A media manager that has every identifier but ["m2"]. *)
Definition partial_media : MediaManager :=
  fun media_id =>
    if String.eqb media_id "m2" then Raise (Raised "media not found")
    else Ok ("b64:" ++ media_id)%string.

Definition partial_adapter : OllamaAdapter.t :=
  {| OllamaAdapter.config := OllamaConfig.default;
     OllamaAdapter.media_manager := partial_media |}.

(** A tool call entry whose function has no name. *)
Definition nameless_call : value := VDict [("function", VDict [])].

(** [{"message": {"tool_calls": [weather, nameless]}}] *)
Definition bad_calls : value :=
  VDict [("message", VDict [("tool_calls", VList [weather_call; nameless_call])])].

(** [{"models": [{"name": "llama3"}, {"size": 1}]}] *)
Definition bad_tags : value :=
  VDict [("models", VList [VDict [("name", VStr "llama3")];
                           VDict [("size", VInt 1)]])].

(** [{"message": {"content": "hello"}, "prompt_eval_count": "5",
      "eval_count": "10"}]: the counts as strings. *)
Definition string_counts : value :=
  VDict [("message", VDict [("content", VStr "hello")]);
         ("prompt_eval_count", VStr "5");
         ("eval_count", VStr "10")].

(** [{"message": {"content": "", "tool_calls": [weather]},
      "prompt_eval_count": 5}]: a tool call and no [eval_count]. *)
Definition call_no_eval_count : value :=
  VDict [("message",
          VDict [("content", VStr "");
                 ("tool_calls", VList [weather_call])]);
         ("prompt_eval_count", VInt 5)].

End Sample.

(** ** Tactics *)

(** The one binding of a key in a literal dict. *)
Ltac option_key Hin :=
  simpl in Hin;
  repeat (destruct Hin as [Hin | Hin];
          [inversion Hin; subst; try congruence |]);
  try contradiction.

(** ** The error monad and the loops *)

Lemma bind_Ok {A B : Type} (c : result A) (k : A -> result B) (b : B) :
  bind c k = Ok b -> exists a, c = Ok a /\ k a = Ok b.
Proof.
  destruct c as [a|e]; simpl; intro H.
  - exists a. split; [reflexivity | exact H].
  - discriminate H.
Qed.

Lemma for_each_length {A B : Type} (body : A -> result B) :
  forall l bs, for_each body l = Ok bs -> List.length bs = List.length l.
Proof.
  induction l as [|a l IH]; simpl; intros bs H.
  - injection H as <-. reflexivity.
  - apply bind_Ok in H. destruct H as [b [_ H]].
    apply bind_Ok in H. destruct H as [bs' [Hbs H]].
    injection H as <-. simpl. f_equal. apply IH. exact Hbs.
Qed.

(** When the body succeeds on every item, the loop returns the results in
    the order of the items. *)
Lemma for_each_Forall2 {A B : Type} (body : A -> result B) :
  forall l bs, Forall2 (fun a b => body a = Ok b) l bs -> for_each body l = Ok bs.
Proof.
  induction 1 as [|a b l bs Hab _ IH]; simpl.
  - reflexivity.
  - rewrite Hab. simpl. rewrite IH. reflexivity.
Qed.

Lemma for_each_map {A B : Type} (body : A -> result B) (f : A -> B) :
  forall l, (forall a, In a l -> body a = Ok (f a)) -> for_each body l = Ok (map f l).
Proof.
  induction l as [|a l IH]; simpl; intro H.
  - reflexivity.
  - rewrite (H a (or_introl eq_refl)). simpl.
    rewrite IH by (intros; apply H; right; assumption). reflexivity.
Qed.

Lemma for_loop_app {S A : Type} (body : S -> A -> result S) :
  forall l1 l2 s,
    for_loop body (l1 ++ l2) s = (s' <- for_loop body l1 s ;; for_loop body l2 s').
Proof.
  induction l1 as [|a l1 IH]; simpl; intros l2 s.
  - reflexivity.
  - destruct (body s a) as [s'|e]; simpl; [apply IH | reflexivity].
Qed.

(** A loop raises as soon as one of its items makes the body raise in
    every state. *)
Lemma for_loop_raises {S A : Type} (body : S -> A -> result S) (a : A) :
  (forall s, exists e, body s a = Raise e) ->
  forall l s, In a l -> exists e, for_loop body l s = Raise e.
Proof.
  intros Ha. induction l as [|b l IH]; simpl; intros s Hin.
  - contradiction.
  - destruct Hin as [-> | Hin].
    + destruct (Ha s) as [e He]. rewrite He. exists e. reflexivity.
    + destruct (body s b) as [s'|e]; simpl.
      * apply IH. exact Hin.
      * exists e. reflexivity.
Qed.

(** ** The response mapping: tool calls *)

(** [resolve_tool_calls_form_content] has no path that returns a list. *)
Lemma resolve_tool_calls_form_content_None (response_data : value) r :
  resolve_tool_calls_form_content response_data = Ok r -> r = None.
Proof.
  unfold resolve_tool_calls_form_content. intro H.
  apply bind_Ok in H. destruct H as [message [_ H]].
  apply bind_Ok in H. destruct H as [tool_calls [_ H]].
  destruct (truthy tool_calls).
  - apply bind_Ok in H. destruct H as [items [_ H]].
    apply bind_Ok in H. destruct H as [calls [_ H]].
    injection H as <-. reflexivity.
  - injection H as <-. reflexivity.
Qed.

Lemma tool_call_content_entry entry name args :
  entry_of entry name args ->
  tool_call_content entry = Ok (LLMToolCallContent name args).
Proof.
  intros [fields [f [-> [Hf [Hn [Hargs Hkind]]]]]].
  unfold tool_call_content. simpl. rewrite Hf. simpl. rewrite Hn. simpl.
  rewrite <- Hargs. unfold LLMToolCallContent_init. simpl.
  destruct Hkind as [-> | [d ->]]; reflexivity.
Qed.

(** The content sequence of a response with tool calls: the text part,
    then one tool call part per entry, in the order of the entries. *)
Lemma convert_llm_response_tool_calls response_data m entries calls :
  getitem response_data "message" = Ok (VDict m) ->
  lookup "tool_calls" m = Some (VList entries) ->
  entries <> [] ->
  (lookup "content" m = None \/ exists s, lookup "content" m = Some (VStr s)) ->
  Forall2 (fun entry call => entry_of entry (fst call) (snd call)) entries calls ->
  convert_llm_response response_data =
    Ok (LLMChatTextContent
          (match lookup "content" m with Some (VStr s) => s | _ => "" end)
        :: map (fun call => LLMToolCallContent (fst call) (snd call)) calls).
Proof.
  intros Hm Htc Hne Hc Hall.
  unfold convert_llm_response. rewrite Hm. simpl. rewrite Htc.
  assert (Ht : truthy (VList entries) = true).
  { destruct entries; [contradiction | reflexivity]. }
  rewrite Ht.
  assert (Hcalls : for_each tool_call_content entries =
                   Ok (map (fun call => LLMToolCallContent (fst call) (snd call)) calls)).
  { apply for_each_Forall2. clear -Hall.
    induction Hall as [|entry call entries calls H _ IH]; simpl; constructor.
    - apply tool_call_content_entry. exact H.
    - exact IH. }
  destruct Hc as [Hc | [s Hc]]; rewrite Hc; simpl; rewrite Hcalls; reflexivity.
Qed.

(** C1 (defect): on a response with two tool calls the content sequence
    is the text part followed by the two tool call parts, and the loop of
    [resolve_tool_calls_form_content] builds the two structured entries
    with the same names and arguments, but the function returns [None]:
    the branch that builds the list never returns it. *)
Theorem tool_calls_list_not_returned :
  convert_llm_response Sample.two_calls =
    Ok [LLMChatTextContent "";
        LLMToolCallContent "get_weather" (VDict [("city", VStr "Paris")]);
        LLMToolCallContent "get_time" VNone]
  /\ for_each tool_call_entry [Sample.weather_call; Sample.time_call] =
       Ok [ {| ToolCall.function :=
                 {| Function.name := Some "get_weather";
                    Function.arguments := VDict [("city", VStr "Paris")] |} |};
            {| ToolCall.function :=
                 {| Function.name := Some "get_time";
                    Function.arguments := VNone |} |} ]
  /\ resolve_tool_calls_form_content Sample.two_calls = Ok None.
Proof.
  repeat split.
Qed.

(** A message that is built holds what it was given, and no tool call
    part. *)
Lemma Message_init_Ok content role finish_reason tool_calls message :
  Message_init content role finish_reason tool_calls = Ok message ->
  message =
    {| Message.content := content;
       Message.role := role;
       Message.finish_reason := finish_reason;
       Message.tool_calls := tool_calls |} /\
  existsb is_tool_call content = false.
Proof.
  unfold Message_init. destruct (existsb is_tool_call content); intro H.
  - discriminate H.
  - injection H as <-. split; reflexivity.
Qed.

(** C10: when the message of the response has no tool calls (the key is
    absent, or its value is [None] or the empty list), the structured
    tool-calls field is [None], in the result of
    [resolve_tool_calls_form_content] and in every response [chat]
    builds. *)
Theorem no_tool_calls_is_None (req : LLMChatRequest.t) (response_data : value)
  (m : list (string * value)) :
  getitem response_data "message" = Ok (VDict m) ->
  lookup "tool_calls" m = None \/
  lookup "tool_calls" m = Some VNone \/
  lookup "tool_calls" m = Some (VList []) ->
  resolve_tool_calls_form_content response_data = Ok None /\
  forall resp,
    chat_return req response_data = Ok resp ->
    Message.tool_calls (LLMChatResponse.message resp) = None.
Proof.
  intros Hm Htc.
  assert (Hr : resolve_tool_calls_form_content response_data = Ok None).
  { unfold resolve_tool_calls_form_content. rewrite Hm. simpl.
    destruct Htc as [-> | [-> | ->]]; reflexivity. }
  split; [exact Hr|].
  intros resp H. unfold chat_return in H.
  apply bind_Ok in H. destruct H as [content [_ H]].
  rewrite Hr in H. simpl in H.
  apply bind_Ok in H. destruct H as [message [Hmessage H]].
  apply Message_init_Ok in Hmessage. destruct Hmessage as [-> _].
  repeat (apply bind_Ok in H; destruct H as [? [_ H]]).
  injection H as <-. reflexivity.
Qed.

Lemma no_tool_calls_is_None_witness :
  resolve_tool_calls_form_content Sample.plain = Ok None /\
  forall resp,
    chat_return (Sample.request []) Sample.plain = Ok resp ->
    Message.tool_calls (LLMChatResponse.message resp) = None.
Proof.
  apply (no_tool_calls_is_None (Sample.request []) Sample.plain
           [("content", VStr "hello")]).
  - reflexivity.
  - left. reflexivity.
Defined.

(** ** The request mapping: messages *)

Lemma emit_message_no_images self role st :
  Locals.images st = [] ->
  emit_message self role st =
    Ok {| Locals.text_content := Locals.text_content st;
          Locals.images := [];
          Locals.messages :=
            Locals.messages st ++ [backend_message role (Locals.text_content st)] |}.
Proof.
  intro H. unfold emit_message. rewrite H. reflexivity.
Qed.

(** With an image gathered, the entry is never appended: the media
    lookup raises, or the store into [messages] does. *)
Lemma emit_message_images self role st :
  Locals.images st <> [] -> exists e, emit_message self role st = Raise e.
Proof.
  intro H. unfold emit_message.
  destruct (Locals.images st) as [|i l]; [contradiction|]. simpl negb. cbv iota.
  destruct (resolve_media_ids (i :: l) (OllamaAdapter.media_manager self)) as [r|e].
  - exists TypeError. reflexivity.
  - exists e. reflexivity.
Qed.

(** A run of text parts appends one entry per part, each holding the text
    of all the parts so far. *)
Lemma text_parts_loop self role :
  forall texts acc messages,
    for_loop (part_body self role) (map LLMChatTextContent texts)
      {| Locals.text_content := acc; Locals.images := []; Locals.messages := messages |} =
    Ok {| Locals.text_content := fold_left String.append texts acc;
          Locals.images := [];
          Locals.messages :=
            messages ++ map (backend_message role) (running_texts acc texts) |}.
Proof.
  induction texts as [|t ts IH]; intros acc messages; simpl.
  - rewrite app_nil_r. reflexivity.
  - rewrite IH. rewrite <- app_assoc. reflexivity.
Qed.

Lemma running_texts_length :
  forall texts acc, List.length (running_texts acc texts) = List.length texts.
Proof.
  induction texts as [|t ts IH]; intro acc; simpl; [|rewrite IH]; reflexivity.
Qed.

(** A message of [p] text parts puts [p] entries into the payload. *)
Lemma text_only_message self messages role texts :
  String.eqb role "tool" = false ->
  message_body self messages
    {| LLMChatMessage.role := role;
       LLMChatMessage.content := map LLMChatTextContent texts |} =
  Ok (messages ++ map (backend_message role) (running_texts "" texts)).
Proof.
  intro Hrole. unfold message_body. simpl. rewrite Hrole.
  rewrite text_parts_loop. reflexivity.
Qed.

(** A message whose parts are all tool calls, or which has no part at
    all, leaves [messages] as it was. *)
Lemma tool_call_only_message self messages msg :
  String.eqb (LLMChatMessage.role msg) "tool" = false ->
  forallb is_tool_call (LLMChatMessage.content msg) = true ->
  message_body self messages msg = Ok messages.
Proof.
  intros Hrole Hparts. unfold message_body. rewrite Hrole.
  assert (H : forall st,
             for_loop (part_body self (LLMChatMessage.role msg))
               (LLMChatMessage.content msg) st = Ok st).
  { induction (LLMChatMessage.content msg) as [|part parts IH]; intro st; simpl.
    - reflexivity.
    - simpl in Hparts. apply andb_true_iff in Hparts. destruct Hparts as [Hp Hps].
      destruct part; try discriminate Hp. simpl. apply IH. exact Hps. }
  rewrite H. reflexivity.
Qed.

(** A message of a role other than "tool" with an image part makes the
    loop over its parts raise. *)
Lemma image_part_raises self role :
  forall parts st,
    existsb is_image parts = true ->
    exists e, for_loop (part_body self role) parts st = Raise e.
Proof.
  induction parts as [|part parts IH]; intros st H; simpl in H.
  - discriminate H.
  - simpl for_loop. destruct (is_image part) eqn:Hpart.
    + destruct part; try discriminate Hpart. unfold part_body.
      destruct (emit_message_images self role
                  {| Locals.text_content := Locals.text_content st;
                     Locals.images := Locals.images st ++ [media_id];
                     Locals.messages := Locals.messages st |}) as [e He].
      { simpl. intro Hnil. apply app_eq_nil in Hnil. destruct Hnil as [_ Hnil].
        discriminate Hnil. }
      rewrite He. exists e. reflexivity.
    + simpl in H. destruct (part_body self role st part) as [st'|e].
      * apply IH. exact H.
      * exists e. reflexivity.
Qed.

Lemma image_message_raises self msg :
  String.eqb (LLMChatMessage.role msg) "tool" = false ->
  existsb is_image (LLMChatMessage.content msg) = true ->
  forall messages, exists e, message_body self messages msg = Raise e.
Proof.
  intros Hrole Himg messages. unfold message_body. rewrite Hrole.
  destruct (image_part_raises self (LLMChatMessage.role msg)
              (LLMChatMessage.content msg)
              {| Locals.text_content := ""; Locals.images := [];
                 Locals.messages := messages |} Himg) as [e He].
  rewrite He. exists e. reflexivity.
Qed.

(** The loop over the parts only appends to [messages]. *)
Lemma part_body_extends self role st part st' :
  part_body self role st part = Ok st' ->
  exists more, Locals.messages st' = Locals.messages st ++ more.
Proof.
  assert (Hemit : forall st0 st1, emit_message self role st0 = Ok st1 ->
            exists more, Locals.messages st1 = Locals.messages st0 ++ more).
  { intros st0 st1 H. unfold emit_message in H.
    apply bind_Ok in H. destruct H as [_ [_ H]]. injection H as <-.
    eexists. reflexivity. }
  destruct part; simpl; intro H.
  - apply Hemit in H. exact H.
  - apply Hemit in H. exact H.
  - injection H as <-. exists []. rewrite app_nil_r. reflexivity.
  - apply Hemit in H. exact H.
Qed.

Lemma parts_loop_extends self role :
  forall parts st st',
    for_loop (part_body self role) parts st = Ok st' ->
    exists more, Locals.messages st' = Locals.messages st ++ more.
Proof.
  induction parts as [|part parts IH]; simpl; intros st st' H.
  - injection H as <-. exists []. rewrite app_nil_r. reflexivity.
  - apply bind_Ok in H. destruct H as [st1 [H1 H]].
    apply part_body_extends in H1. destruct H1 as [more1 H1].
    apply IH in H. destruct H as [more2 H].
    exists (more1 ++ more2). rewrite H, H1, app_assoc. reflexivity.
Qed.

Lemma message_body_extends self messages msg out :
  message_body self messages msg = Ok out -> exists more, out = messages ++ more.
Proof.
  unfold message_body.
  destruct (String.eqb (LLMChatMessage.role msg) "tool"); intro H.
  - apply bind_Ok in H. destruct H as [entries [_ H]]. injection H as <-.
    exists entries. reflexivity.
  - apply bind_Ok in H. destruct H as [st [Hst H]]. injection H as <-.
    apply parts_loop_extends in Hst. exact Hst.
Qed.

Lemma messages_loop_extends self :
  forall msgs messages out,
    for_loop (message_body self) msgs messages = Ok out ->
    exists more, out = messages ++ more.
Proof.
  induction msgs as [|msg msgs IH]; simpl; intros messages out H.
  - injection H as <-. exists []. rewrite app_nil_r. reflexivity.
  - apply bind_Ok in H. destruct H as [mid [H1 H]].
    apply message_body_extends in H1. destruct H1 as [more1 ->].
    apply IH in H. destruct H as [more2 ->].
    exists (more1 ++ more2). rewrite app_assoc. reflexivity.
Qed.

Lemma text_parts_inv :
  forall parts,
    forallb is_text parts = true ->
    exists texts, parts = map LLMChatTextContent texts.
Proof.
  induction parts as [|part parts IH]; simpl; intro H.
  - exists []. reflexivity.
  - apply andb_true_iff in H. destruct H as [Hpart Hparts].
    destruct part; try discriminate Hpart.
    destruct (IH Hparts) as [texts ->].
    exists (text :: texts). reflexivity.
Qed.

(** What holds of a request of text-only messages: the mapping succeeds,
    the payload has as many entries as the messages have parts, and each
    entry has a role and a string content. *)
Lemma text_only_request self :
  forall msgs messages,
    (forall msg, In msg msgs ->
       String.eqb (LLMChatMessage.role msg) "tool" = false /\
       forallb is_text (LLMChatMessage.content msg) = true) ->
    exists out,
      for_loop (message_body self) msgs messages = Ok (messages ++ out) /\
      List.length out = List.length (flat_map LLMChatMessage.content msgs) /\
      Forall (fun entry => exists role s, entry = backend_message role s) out.
Proof.
  induction msgs as [|msg msgs IH]; intros messages H.
  - exists []. simpl. rewrite app_nil_r. repeat split. constructor.
  - destruct (H msg (or_introl eq_refl)) as [Hrole Hparts].
    destruct msg as [role parts]. simpl in Hrole, Hparts.
    destruct (text_parts_inv parts Hparts) as [texts ->].
    destruct (IH (messages ++ map (backend_message role) (running_texts "" texts)))
      as [out [Hout [Hlen Hall]]].
    { intros m Hin. apply H. right. exact Hin. }
    exists (map (backend_message role) (running_texts "" texts) ++ out).
    split; [|split].
    + simpl for_loop. rewrite (text_only_message self messages role texts Hrole).
      simpl. rewrite Hout, app_assoc. reflexivity.
    + simpl flat_map. rewrite !length_app, !length_map, running_texts_length, Hlen.
      reflexivity.
    + apply Forall_app. split; [|exact Hall].
      apply Forall_forall. intros entry Hin. apply in_map_iff in Hin.
      destruct Hin as [s [<- _]]. exists role, s. reflexivity.
Qed.

(** A request with an image in a message of a role other than "tool" is
    never sent. *)
Lemma image_request_not_sent requests_post self req msg :
  In msg (LLMChatRequest.messages req) ->
  String.eqb (LLMChatMessage.role msg) "tool" = false ->
  existsb is_image (LLMChatMessage.content msg) = true ->
  exists e, chat requests_post self req = ([], Raise e).
Proof.
  intros Hin Hrole Himg.
  destruct (for_loop_raises (message_body self) msg
              (fun messages => image_message_raises self msg Hrole Himg messages)
              (LLMChatRequest.messages req) [] Hin) as [e He].
  exists e. unfold chat, io_bind, lift, convert_messages. rewrite He. reflexivity.
Qed.

(** C2 (defect): a request with one text-only message of two text parts
    maps to two backend messages, the first with the text of the first
    part and the second with the text of both: the entry is appended
    inside the loop over the parts, once per part, and not once per
    message. *)
Theorem text_message_one_entry_per_part :
  convert_messages Sample.adapter
    (Sample.request
       [Sample.user [LLMChatTextContent "a"; LLMChatTextContent "b"]]) =
  Ok [VDict [("role", VStr "user"); ("content", VStr "a")];
      VDict [("role", VStr "user"); ("content", VStr "ab")]].
Proof. reflexivity. Qed.

(** C3 (defect): a message with an empty content sequence, and a message
    whose only part is a tool call, put no backend message into the
    payload: the entry is appended inside the loop over the parts, which
    does not run for the first and skips the part of the second. *)
Theorem empty_message_dropped :
  convert_messages Sample.adapter (Sample.request [Sample.user []]) = Ok []
  /\ convert_messages Sample.adapter
       (Sample.request [Sample.user [LLMToolCallContent "get_time" VNone]]) = Ok []
  /\ request_data (Sample.request [Sample.user []]) [] =
       VDict [("model", VStr "llama3");
              ("messages", VList []);
              ("stream", VBool false);
              ("options", VDict [("temperature", VInt 1)])].
Proof. repeat split. Qed.

(** C4 (defect): a message with an image part makes the mapping raise
    [TypeError] before any request is sent, although the media manager
    resolves the identifier: the resolved list is stored under the key
    ["images"] of the list [messages], not of the dict [message]. *)
Theorem image_message_fails :
  resolve_media_ids ["m1"] (OllamaAdapter.media_manager Sample.adapter) =
    Ok ["b64:m1"]
  /\ convert_messages Sample.adapter
       (Sample.request
          [Sample.user [LLMChatTextContent "look"; LLMChatImageContent "m1"]]) =
     Raise TypeError
  /\ forall requests_post,
       chat requests_post Sample.adapter
         (Sample.request
            [Sample.user [LLMChatTextContent "look"; LLMChatImageContent "m1"]]) =
       ([], Raise TypeError).
Proof. repeat split. Qed.

(** C9: a message with role "tool" whose [p] parts are tool results adds
    exactly [p] backend messages, in the order of the parts, each of the
    form [{"role": "tool", "content": part.content, "name": part.name}]:
    they follow whatever [messages] held, and in the payload of the whole
    request they stand between the entries of the messages before it and
    those of the messages after it. *)
Theorem tool_message_entries (self : OllamaAdapter.t) (req : LLMChatRequest.t)
  (pre post : list LLMChatMessage.t) (msg : LLMChatMessage.t)
  (results : list (string * value)) :
  LLMChatRequest.messages req = pre ++ msg :: post ->
  LLMChatMessage.role msg = "tool" ->
  LLMChatMessage.content msg =
    map (fun r => LLMToolResultContent (fst r) (snd r)) results ->
  (forall messages,
     message_body self messages msg =
     Ok (messages ++
         map (fun r => VDict [("role", VStr "tool");
                              ("content", snd r);
                              ("name", VStr (fst r))]) results))
  /\ (forall out,
        convert_messages self req = Ok out ->
        exists before after,
          for_loop (message_body self) pre [] = Ok before /\
          out = before ++
                map (fun r => VDict [("role", VStr "tool");
                                     ("content", snd r);
                                     ("name", VStr (fst r))]) results ++
                after).
Proof.
  intros Hreq Hrole Hparts.
  assert (Hbody : forall messages,
     message_body self messages msg =
     Ok (messages ++
         map (fun r => VDict [("role", VStr "tool");
                              ("content", snd r);
                              ("name", VStr (fst r))]) results)).
  { intro messages. unfold message_body. rewrite Hrole, Hparts. simpl.
    rewrite (for_each_map tool_message
               (fun part =>
                  match part with
                  | LLMToolResultContent name content =>
                      VDict [("role", VStr "tool"); ("content", content);
                             ("name", VStr name)]
                  | _ => VNone
                  end)).
    - simpl. rewrite map_map. reflexivity.
    - intros part Hin. apply in_map_iff in Hin. destruct Hin as [r [<- _]].
      reflexivity. }
  split; [exact Hbody|].
  intros out H. unfold convert_messages in H. rewrite Hreq in H.
  rewrite for_loop_app in H.
  apply bind_Ok in H. destruct H as [before [Hpre H]].
  simpl in H. rewrite Hbody in H. simpl in H.
  apply messages_loop_extends in H. destruct H as [after ->].
  exists before, after. split; [exact Hpre|]. rewrite app_assoc. reflexivity.
Qed.

Lemma tool_message_entries_witness :
  convert_messages Sample.adapter
    (Sample.request
       [Sample.user [LLMChatTextContent "hi"];
        {| LLMChatMessage.role := "tool";
           LLMChatMessage.content :=
             [LLMToolResultContent "get_time" (VStr "12:00");
              LLMToolResultContent "get_weather" (VStr "sunny")] |}]) =
  Ok [VDict [("role", VStr "user"); ("content", VStr "hi")];
      VDict [("role", VStr "tool"); ("content", VStr "12:00");
             ("name", VStr "get_time")];
      VDict [("role", VStr "tool"); ("content", VStr "sunny");
             ("name", VStr "get_weather")]].
Proof.
  pose proof
    (tool_message_entries Sample.adapter
       (Sample.request
          [Sample.user [LLMChatTextContent "hi"];
           {| LLMChatMessage.role := "tool";
              LLMChatMessage.content :=
                [LLMToolResultContent "get_time" (VStr "12:00");
                 LLMToolResultContent "get_weather" (VStr "sunny")] |}])
       [Sample.user [LLMChatTextContent "hi"]] []
       {| LLMChatMessage.role := "tool";
          LLMChatMessage.content :=
            [LLMToolResultContent "get_time" (VStr "12:00");
             LLMToolResultContent "get_weather" (VStr "sunny")] |}
       [("get_time", VStr "12:00"); ("get_weather", VStr "sunny")]
       eq_refl eq_refl eq_refl) as [Hbody _].
  transitivity
    (message_body Sample.adapter
       [VDict [("role", VStr "user"); ("content", VStr "hi")]]
       {| LLMChatMessage.role := "tool";
          LLMChatMessage.content :=
            [LLMToolResultContent "get_time" (VStr "12:00");
             LLMToolResultContent "get_weather" (VStr "sunny")] |}).
  - reflexivity.
  - exact (Hbody [VDict [("role", VStr "user"); ("content", VStr "hi")]]).
Defined.

(** ** The payload *)

Lemma not_None_items_In k v d :
  In (k, v) (not_None_items d) -> v <> VNone.
Proof.
  unfold not_None_items. intro H. apply filter_In in H. destruct H as [_ H].
  intros ->. discriminate H.
Qed.

(** A key whose only values are [None] is gone after the filter. *)
Lemma not_None_items_absent k :
  forall d, (forall v, In (k, v) d -> v = VNone) -> lookup k (not_None_items d) = None.
Proof.
  induction d as [|[k' v'] d IH]; intro H; simpl.
  - reflexivity.
  - destruct (is_not_None v') eqn:Hv; simpl.
    + destruct (String.eqb k k') eqn:Hk.
      * apply String.eqb_eq in Hk. subst k'.
        rewrite (H v' (or_introl eq_refl)) in Hv. discriminate Hv.
      * apply IH. intros v Hin. apply H. right. exact Hin.
    + apply IH. intros v Hin. apply H. right. exact Hin.
Qed.

(** The payload is the dict of ["model"] (when set), ["messages"],
    ["stream"] and the filtered ["options"]. *)
Lemma request_data_fields req messages :
  request_data req messages =
  VDict ((if is_not_None (LLMChatRequest.model req)
          then [("model", LLMChatRequest.model req)] else []) ++
         [("messages", VList messages);
          ("stream", VBool false);
          ("options", VDict (request_options req))]).
Proof.
  unfold request_data, request_options.
  destruct (LLMChatRequest.model req); reflexivity.
Qed.

(** ** The chat operation: transport *)

(** What [chat] does once the request is mapped and the POST has an
    answer: one POST; then the body is printed and the error raised again
    when the status check or the decoding raises, and the response is
    mapped otherwise. *)
Lemma chat_exchange requests_post self req messages response :
  convert_messages self req = Ok messages ->
  requests_post (chat_url self) (request_data req messages) chat_headers =
    Ok response ->
  chat requests_post self req =
  let sent := Post (chat_url self) (request_data req messages) chat_headers in
  let shown := Printed ("API Response: " ++ Response.text response)%string in
  match Response.raise_for_status response with
  | Some e => ([sent; shown], Raise e)
  | None =>
      match Response.json response with
      | Raise e => ([sent; shown], Raise e)
      | Ok response_data => ([sent], chat_return req response_data)
      end
  end.
Proof.
  intros Hmap Hpost. unfold chat, io_bind, emit, try_except, lift.
  rewrite Hmap, Hpost. cbv zeta.
  destruct (Response.raise_for_status response) as [e|]; [reflexivity|].
  destruct (Response.json response) as [response_data|e]; [|reflexivity].
  simpl. destruct (chat_return req response_data); reflexivity.
Qed.

(** Every POST of [chat] goes to the chat endpoint and carries the
    payload built from the request. *)
Lemma chat_posts requests_post self req url data headers :
  In (Post url data headers) (fst (chat requests_post self req)) ->
  exists messages,
    convert_messages self req = Ok messages /\
    url = chat_url self /\
    data = request_data req messages /\
    headers = chat_headers.
Proof.
  destruct (convert_messages self req) as [messages|e] eqn:Hmap.
  - destruct (requests_post (chat_url self) (request_data req messages) chat_headers)
      as [response|e] eqn:Hpost.
    + rewrite (chat_exchange _ _ _ _ _ Hmap Hpost). intro H.
      exists messages. split; [reflexivity|].
      assert (Hsent : Post url data headers =
                      Post (chat_url self) (request_data req messages) chat_headers).
      { cbv zeta in H.
        destruct (Response.raise_for_status response);
          [| destruct (Response.json response)]; simpl in H;
          repeat (destruct H as [H | H]; try discriminate H; try contradiction);
          symmetry; exact H. }
      injection Hsent as -> -> ->. repeat split.
    + unfold chat, io_bind, lift, emit. rewrite Hmap, Hpost. simpl. intro H.
      destruct H as [H | []]. injection H as <- <- <-.
      exists messages. repeat split.
  - unfold chat, io_bind, lift. rewrite Hmap. simpl. contradiction.
Qed.

(** C6: the payload [chat] posts is a dict none of whose values is
    [None], its ["options"] is a dict none of whose values is [None], and
    a parameter left unset has no key: no ["num_predict"] without
    [max_tokens], and the same for ["temperature"], ["top_p"], ["stop"],
    ["tools"] and, at the top level, ["model"]. *)
Theorem payload_has_no_None requests_post (self : OllamaAdapter.t)
  (req : LLMChatRequest.t) url data headers :
  In (Post url data headers) (fst (chat requests_post self req)) ->
  exists top options,
    data = VDict top /\
    (forall k v, In (k, v) top -> v <> VNone) /\
    lookup "options" top = Some (VDict options) /\
    (forall k v, In (k, v) options -> v <> VNone) /\
    (LLMChatRequest.max_tokens req = VNone -> lookup "num_predict" options = None) /\
    (LLMChatRequest.temperature req = VNone -> lookup "temperature" options = None) /\
    (LLMChatRequest.top_p req = VNone -> lookup "top_p" options = None) /\
    (LLMChatRequest.stop req = VNone -> lookup "stop" options = None) /\
    (LLMChatRequest.tools req = None \/ LLMChatRequest.tools req = Some [] ->
     lookup "tools" options = None) /\
    (LLMChatRequest.model req = VNone -> lookup "model" top = None).
Proof.
  intro H. apply chat_posts in H. destruct H as [messages [_ [_ [-> _]]]].
  rewrite request_data_fields.
  eexists. exists (request_options req). split; [reflexivity|].
  assert (Habsent : forall k, (forall v,
            In (k, v)
              [("temperature", LLMChatRequest.temperature req);
               ("top_p", LLMChatRequest.top_p req);
               ("num_predict", LLMChatRequest.max_tokens req);
               ("stop", LLMChatRequest.stop req);
               ("tools",
                 match LLMChatRequest.tools req with
                 | Some (tool :: rest) => VList (map Tool.model_dump (tool :: rest))
                 | _ => VNone
                 end)] -> v = VNone) ->
            lookup k (request_options req) = None).
  { intros k Hk. apply not_None_items_absent. exact Hk. }
  split; [|split; [|split; [|repeat split]]].
  - intros k v Hin. apply in_app_or in Hin. destruct Hin as [Hin | Hin].
    + destruct (is_not_None (LLMChatRequest.model req)) eqn:Hm.
      * destruct Hin as [Hin | []]. injection Hin as _ <-.
        intro Hn. rewrite Hn in Hm. discriminate Hm.
      * contradiction.
    + simpl in Hin.
      destruct Hin as [Hin | [Hin | [Hin | []]]]; injection Hin as _ <-;
        discriminate.
  - destruct (is_not_None (LLMChatRequest.model req)); reflexivity.
  - intros k v Hin. apply not_None_items_In in Hin. exact Hin.
  - intro Hu. apply Habsent. intros v Hin. option_key Hin.
  - intro Hu. apply Habsent. intros v Hin. option_key Hin.
  - intro Hu. apply Habsent. intros v Hin. option_key Hin.
  - intro Hu. apply Habsent. intros v Hin. option_key Hin.
  - intro Hu. apply Habsent. intros v Hin. option_key Hin.
    destruct Hu as [-> | ->]; reflexivity.
  - intro Hu. rewrite Hu. reflexivity.
Qed.

(** ** The chat operation: the response *)

Lemma tool_call_content_entry_Ok call part :
  tool_call_content call = Ok part -> exists t, tool_call_entry call = Ok t.
Proof.
  unfold tool_call_content, tool_call_entry, LLMToolCallContent_init, Function_init.
  intro H.
  apply bind_Ok in H. destruct H as [f [Hf H]].
  apply bind_Ok in H. destruct H as [name [Hname H]].
  apply bind_Ok in H. destruct H as [f' [Hf' H]].
  apply bind_Ok in H. destruct H as [parameters [Hp H]].
  apply bind_Ok in H. destruct H as [s [Hs H]].
  apply bind_Ok in H. destruct H as [a [Ha _]].
  rewrite Hf. simpl. rewrite Hname. simpl. rewrite Hf in Hf'.
  injection Hf' as <-. rewrite Hp. simpl.
  destruct name; try discriminate Hs. simpl. rewrite Ha. simpl.
  eexists. reflexivity.
Qed.

Lemma for_each_tool_call_entry_Ok :
  forall items parts,
    for_each tool_call_content items = Ok parts ->
    exists calls, for_each tool_call_entry items = Ok calls.
Proof.
  induction items as [|call items IH]; simpl; intros parts H.
  - eexists. reflexivity.
  - apply bind_Ok in H. destruct H as [part [Hpart H]].
    apply bind_Ok in H. destruct H as [parts' [Hparts _]].
    apply tool_call_content_entry_Ok in Hpart. destruct Hpart as [t ->].
    apply IH in Hparts. destruct Hparts as [calls ->].
    simpl. eexists. reflexivity.
Qed.

(** Whenever the content sequence is built, the structured list is
    evaluated without an exception, and is [None]. *)
Lemma convert_Ok_resolve response_data content :
  convert_llm_response response_data = Ok content ->
  resolve_tool_calls_form_content response_data = Ok None.
Proof.
  unfold convert_llm_response, resolve_tool_calls_form_content. intro H.
  apply bind_Ok in H. destruct H as [message [Hm H]].
  apply bind_Ok in H. destruct H as [text [_ H]].
  apply bind_Ok in H. destruct H as [part [_ H]].
  rewrite Hm in H |- *. simpl in H |- *.
  apply bind_Ok in H. destruct H as [cond [Hcond H]].
  rewrite Hcond. simpl.
  destruct (truthy cond) eqn:Hc; [|reflexivity].
  apply bind_Ok in H. destruct H as [tool_calls [Htc H]].
  apply bind_Ok in H. destruct H as [items [Hitems H]].
  apply bind_Ok in H. destruct H as [calls [Hcalls _]].
  assert (tool_calls = cond) as ->.
  { destruct message; try discriminate Htc. simpl in Htc, Hcond.
    destruct (lookup "tool_calls" fields) as [x|]; [|discriminate Htc].
    injection Htc as <-. injection Hcond as <-. reflexivity. }
  rewrite Hitems. simpl.
  apply for_each_tool_call_entry_Ok in Hcalls. destruct Hcalls as [entries ->].
  reflexivity.
Qed.

(** Once the content sequence is built, what is left of the [return]
    expression of [chat] is the message and the usage. *)
Lemma chat_return_usage req response_data content :
  convert_llm_response response_data = Ok content ->
  chat_return req response_data =
  (message <- Message_init content "assistant" "stop" None ;;
   prompt_tokens <- getitem response_data "prompt_eval_count" ;;
   completion_tokens <- getitem response_data "eval_count" ;;
   total_tokens <- add prompt_tokens completion_tokens ;;
   usage <- Usage_init prompt_tokens completion_tokens total_tokens ;;
   Ok {| LLMChatResponse.model := LLMChatRequest.model req;
         LLMChatResponse.message := message;
         LLMChatResponse.usage := usage |}).
Proof.
  intro H. unfold chat_return.
  rewrite H, (convert_Ok_resolve _ _ H). simpl.
  destruct (Message_init content "assistant" "stop" None); [|reflexivity]. simpl.
  destruct (getitem response_data "prompt_eval_count"); [|reflexivity]. simpl.
  destruct (getitem response_data "eval_count"); reflexivity.
Qed.

(** Whatever the response is, without one of the counts there is no
    [LLMChatResponse]. *)
Lemma missing_count_no_response req response_data k :
  k = "prompt_eval_count" \/ k = "eval_count" ->
  (forall v, getitem response_data k <> Ok v) ->
  exists e, chat_return req response_data = Raise e.
Proof.
  intros Hk Hmissing.
  destruct (chat_return req response_data) as [resp|e] eqn:H;
    [|exists e; reflexivity].
  exfalso. unfold chat_return in H.
  apply bind_Ok in H. destruct H as [content [_ H]].
  apply bind_Ok in H. destruct H as [tool_calls [_ H]].
  apply bind_Ok in H. destruct H as [message [_ H]].
  apply bind_Ok in H. destruct H as [p [Hp H]].
  apply bind_Ok in H. destruct H as [c [Hc _]].
  destruct Hk as [-> | ->]; [exact (Hmissing p Hp) | exact (Hmissing c Hc)].
Qed.

(** The content sequence of a message with a string content, or none,
    and no tool calls. *)
Lemma plain_message_content d m :
  lookup "message" d = Some (VDict m) ->
  lookup "content" m = None \/ (exists s, lookup "content" m = Some (VStr s)) ->
  lookup "tool_calls" m = None \/
  lookup "tool_calls" m = Some VNone \/
  lookup "tool_calls" m = Some (VList []) ->
  convert_llm_response (VDict d) =
    Ok [LLMChatTextContent
          (match lookup "content" m with Some (VStr s) => s | _ => "" end)].
Proof.
  intros Hm Hcontent Htc. unfold convert_llm_response. simpl. rewrite Hm. simpl.
  destruct Hcontent as [-> | [s ->]]; simpl;
    destruct Htc as [-> | [-> | ->]]; reflexivity.
Qed.

(** C5, against the claim as stated: with the counts ["5"] and ["10"]
    [chat] returns the usage 5, 10 and 510, the number read from the sum
    of the two strings, which is not the sum of the two counts; and on a
    response with a tool call and no [eval_count], [chat] raises
    [ValidationError], from building the message, before a count is
    looked up. *)
Lemma usage_from_counts_counterexample :
  (exists resp,
     snd (chat (Sample.replies (Sample.answer None "" (Ok Sample.string_counts)))
            Sample.adapter Sample.hello) = Ok resp /\
     LLMChatResponse.usage resp =
       {| Usage.prompt_tokens := 5;
          Usage.completion_tokens := 10;
          Usage.total_tokens := 510 |} /\
     Usage.total_tokens (LLMChatResponse.usage resp) <>
       Usage.prompt_tokens (LLMChatResponse.usage resp) +
       Usage.completion_tokens (LLMChatResponse.usage resp))
  /\ lookup "eval_count"
       [("message",
          VDict [("content", VStr "");
                 ("tool_calls", VList [Sample.weather_call])]);
        ("prompt_eval_count", VInt 5)] = None
  /\ snd (chat (Sample.replies (Sample.answer None "" (Ok Sample.call_no_eval_count)))
            Sample.adapter Sample.hello) = Raise ValidationError.
Proof.
  split; [|split; reflexivity].
  eexists. split; [reflexivity|]. split; [reflexivity|].
  simpl. discriminate.
Qed.

(** C5, as amended: when the decoded response holds the integers [p] and
    [c] under ["prompt_eval_count"] and ["eval_count"], every response
    [chat] returns has the usage [p], [c] and [p + c], and [chat] does
    return one when the message has a string content, or none, and no
    tool calls; when one of the two keys is missing, [chat] returns no
    response but raises, and for such a message the error is the
    [KeyError] of a missing count. *)
Theorem usage_from_counts requests_post (self : OllamaAdapter.t)
  (req : LLMChatRequest.t) (messages : list value) (response : Response.t)
  (d : list (string * value)) :
  convert_messages self req = Ok messages ->
  requests_post (chat_url self) (request_data req messages) chat_headers =
    Ok response ->
  Response.raise_for_status response = None ->
  Response.json response = Ok (VDict d) ->
  (forall p c,
     lookup "prompt_eval_count" d = Some (VInt p) ->
     lookup "eval_count" d = Some (VInt c) ->
     (forall resp,
        snd (chat requests_post self req) = Ok resp ->
        LLMChatResponse.usage resp =
          {| Usage.prompt_tokens := p;
             Usage.completion_tokens := c;
             Usage.total_tokens := p + c |}) /\
     (forall m,
        lookup "message" d = Some (VDict m) ->
        lookup "content" m = None \/ (exists s, lookup "content" m = Some (VStr s)) ->
        lookup "tool_calls" m = None \/
        lookup "tool_calls" m = Some VNone \/
        lookup "tool_calls" m = Some (VList []) ->
        exists resp, snd (chat requests_post self req) = Ok resp))
  /\ (lookup "prompt_eval_count" d = None \/ lookup "eval_count" d = None ->
      (exists e, snd (chat requests_post self req) = Raise e) /\
      (forall m,
         lookup "message" d = Some (VDict m) ->
         lookup "content" m = None \/ (exists s, lookup "content" m = Some (VStr s)) ->
         lookup "tool_calls" m = None \/
         lookup "tool_calls" m = Some VNone \/
         lookup "tool_calls" m = Some (VList []) ->
         exists k,
           snd (chat requests_post self req) = Raise (KeyError k) /\
           (k = "prompt_eval_count" \/ k = "eval_count") /\
           lookup k d = None)).
Proof.
  intros Hmap Hpost Hstatus Hjson.
  rewrite (chat_exchange _ _ _ _ _ Hmap Hpost), Hstatus, Hjson. cbv zeta. simpl snd.
  split.
  - intros p c Hp Hc. split.
    + intros resp H.
      destruct (convert_llm_response (VDict d)) as [content|e] eqn:Hcontent.
      * rewrite (chat_return_usage _ _ _ Hcontent) in H.
        apply bind_Ok in H. destruct H as [message [_ H]].
        simpl in H. rewrite Hp, Hc in H. simpl in H.
        injection H as <-. reflexivity.
      * unfold chat_return in H. rewrite Hcontent in H. discriminate H.
    + intros m Hm Hcontent Htc.
      rewrite (chat_return_usage _ _ _ (plain_message_content d m Hm Hcontent Htc)).
      simpl. rewrite Hp, Hc. simpl. eexists. reflexivity.
  - intro Hmissing. split.
    + destruct Hmissing as [H | H].
      * apply (missing_count_no_response req (VDict d) "prompt_eval_count").
        -- left. reflexivity.
        -- intros v Hv. simpl in Hv. rewrite H in Hv. discriminate Hv.
      * apply (missing_count_no_response req (VDict d) "eval_count").
        -- right. reflexivity.
        -- intros v Hv. simpl in Hv. rewrite H in Hv. discriminate Hv.
    + intros m Hm Hcontent Htc.
      rewrite (chat_return_usage _ _ _ (plain_message_content d m Hm Hcontent Htc)).
      simpl.
      destruct (lookup "prompt_eval_count" d) as [v|] eqn:Hp; simpl.
      * destruct Hmissing as [H | H]; [discriminate H|]. rewrite H. simpl.
        exists "eval_count". split; [reflexivity|]. split; [right; reflexivity|].
        exact H.
      * exists "prompt_eval_count". split; [reflexivity|].
        split; [left; reflexivity|]. exact Hp.
Qed.

Lemma usage_from_counts_witness :
  (exists resp,
     snd (chat (Sample.replies (Sample.answer None "" (Ok Sample.plain)))
            Sample.adapter Sample.hello) = Ok resp /\
     LLMChatResponse.usage resp =
       {| Usage.prompt_tokens := 5;
          Usage.completion_tokens := 10;
          Usage.total_tokens := 15 |})
  /\ snd (chat (Sample.replies (Sample.answer None "" (Ok Sample.no_eval_count)))
            Sample.adapter Sample.hello) = Raise (KeyError "eval_count").
Proof.
  split.
  - destruct (usage_from_counts
                (Sample.replies (Sample.answer None "" (Ok Sample.plain)))
                Sample.adapter Sample.hello
                [VDict [("role", VStr "user"); ("content", VStr "hi")]]
                (Sample.answer None "" (Ok Sample.plain))
                [("message", VDict [("content", VStr "hello")]);
                 ("prompt_eval_count", VInt 5);
                 ("eval_count", VInt 10)]
                eq_refl eq_refl eq_refl eq_refl) as [HA _].
    destruct (HA 5 10 eq_refl eq_refl) as [Husage Hreturns].
    destruct (Hreturns [("content", VStr "hello")] eq_refl
                (or_intror (ex_intro _ "hello" eq_refl)) (or_introl eq_refl))
      as [resp Hresp].
    exists resp. split; [exact Hresp|]. apply Husage. exact Hresp.
  - destruct (usage_from_counts
                (Sample.replies (Sample.answer None "" (Ok Sample.no_eval_count)))
                Sample.adapter Sample.hello
                [VDict [("role", VStr "user"); ("content", VStr "hi")]]
                (Sample.answer None "" (Ok Sample.no_eval_count))
                [("message", VDict [("content", VStr "hello")]);
                 ("prompt_eval_count", VInt 5)]
                eq_refl eq_refl eq_refl eq_refl) as [_ HB].
    destruct (HB (or_intror eq_refl)) as [_ Hkey].
    destruct (Hkey [("content", VStr "hello")] eq_refl
                (or_intror (ex_intro _ "hello" eq_refl)) (or_introl eq_refl))
      as [k [Hk [[-> | ->] Hnone]]].
    + discriminate Hnone.
    + exact Hk.
Defined.

Lemma payload_has_no_None_witness :
  exists top options,
    request_data Sample.hello
      [VDict [("role", VStr "user"); ("content", VStr "hi")]] = VDict top /\
    (forall k v, In (k, v) top -> v <> VNone) /\
    lookup "options" top = Some (VDict options) /\
    (forall k v, In (k, v) options -> v <> VNone) /\
    lookup "num_predict" options = None.
Proof.
  destruct (payload_has_no_None
              (Sample.replies (Sample.answer None "" (Ok Sample.plain)))
              Sample.adapter Sample.hello
              (chat_url Sample.adapter)
              (request_data Sample.hello
                 [VDict [("role", VStr "user"); ("content", VStr "hi")]])
              chat_headers
              (or_introl eq_refl))
    as [top [options [Htop [Hvalues [Hoptions [Hovalues [Hpredict _]]]]]]].
  exists top, options.
  split; [exact Htop|].
  split; [exact Hvalues|].
  split; [exact Hoptions|].
  split; [exact Hovalues|].
  apply Hpredict. reflexivity.
Defined.

(** Whenever the status check of the response to the POST raises, [chat]
    has sent that one POST, prints the raw body of the response after the
    words "API Response: ", and raises the same error again. *)
Lemma status_error_reraised requests_post (self : OllamaAdapter.t)
  (req : LLMChatRequest.t) (messages : list value) (response : Response.t)
  (e : exn) :
  convert_messages self req = Ok messages ->
  requests_post (chat_url self) (request_data req messages) chat_headers =
    Ok response ->
  Response.raise_for_status response = Some e ->
  chat requests_post self req =
  ([Post (chat_url self) (request_data req messages) chat_headers;
    Printed ("API Response: " ++ Response.text response)%string],
   Raise e).
Proof.
  intros Hmap Hpost Hstatus.
  rewrite (chat_exchange _ _ _ _ _ Hmap Hpost), Hstatus. reflexivity.
Qed.

(** C7, against the claim as stated: the answer 301 is not a 2xx status,
    and [chat] prints nothing, raises nothing and returns the response
    mapped from the body. *)
Lemma failed_status_counterexample :
  chat (Sample.replies (requests_response 301 "" (Ok Sample.plain)))
    Sample.adapter Sample.hello =
  ([Post "http://localhost:11434/api/chat"
      (request_data Sample.hello [Sample.hello_entry])
      [("Content-Type", "application/json")]],
   Ok Sample.plain_response).
Proof. reflexivity. Qed.

(** C7, as amended: when the response to the POST has a status from 400
    to 599, the statuses for which the status check of the HTTP client
    raises, [chat] has sent that one POST, prints the raw body of the
    response after the words "API Response: " and raises the transport
    error; it returns no response.  For every other status the check
    passes, and the body is decoded and mapped as for a success. *)
Theorem failed_status_reraised requests_post (self : OllamaAdapter.t)
  (req : LLMChatRequest.t) (messages : list value) (status_code : Z)
  (body : string) (decoded : result value) :
  convert_messages self req = Ok messages ->
  requests_post
    (OllamaConfig.api_base (OllamaAdapter.config self) ++ "/api/chat")%string
    (request_data req messages)
    [("Content-Type", "application/json")] =
    Ok (requests_response status_code body decoded) ->
  let sent :=
    Post (OllamaConfig.api_base (OllamaAdapter.config self) ++ "/api/chat")%string
      (request_data req messages)
      [("Content-Type", "application/json")] in
  let shown := Printed ("API Response: " ++ body)%string in
  (400 <= status_code < 600 ->
   chat requests_post self req = ([sent; shown], Raise (Raised "HTTPError")))
  /\ (status_code < 400 \/ 600 <= status_code ->
      chat requests_post self req =
      match decoded with
      | Raise e => ([sent; shown], Raise e)
      | Ok response_data => ([sent], chat_return req response_data)
      end).
Proof.
  intros Hmap Hpost. cbv zeta.
  rewrite (chat_exchange _ _ _ _ _ Hmap Hpost). cbv zeta.
  unfold requests_response. simpl.
  split.
  - intros [Hlo Hhi].
    apply Z.leb_le in Hlo. apply Z.ltb_lt in Hhi. rewrite Hlo, Hhi. reflexivity.
  - intros H.
    assert (Hcheck : (400 <=? status_code) && (status_code <? 600) = false).
    { apply andb_false_iff. destruct H as [H | H].
      - left. apply Z.leb_gt. exact H.
      - right. apply Z.ltb_ge. exact H. }
    rewrite Hcheck. destruct decoded; reflexivity.
Qed.

Lemma failed_status_reraised_witness :
  chat
    (Sample.replies
       (requests_response 500 "model not loaded" (Raise (Raised "Expecting value"))))
    Sample.adapter Sample.hello =
  ([Post "http://localhost:11434/api/chat"
      (VDict [("model", VStr "llama3");
              ("messages",
                VList [VDict [("role", VStr "user"); ("content", VStr "hi")]]);
              ("stream", VBool false);
              ("options", VDict [("temperature", VInt 1)])])
      [("Content-Type", "application/json")];
    Printed "API Response: model not loaded"],
   Raise (Raised "HTTPError"))
  /\ chat (Sample.replies (requests_response 200 "" (Ok Sample.plain)))
       Sample.adapter Sample.hello =
     ([Post "http://localhost:11434/api/chat"
         (request_data Sample.hello [Sample.hello_entry])
         [("Content-Type", "application/json")]],
      chat_return Sample.hello Sample.plain).
Proof.
  split.
  - apply (proj1 (failed_status_reraised
                    (Sample.replies
                       (requests_response 500 "model not loaded"
                          (Raise (Raised "Expecting value"))))
                    Sample.adapter Sample.hello
                    [VDict [("role", VStr "user"); ("content", VStr "hi")]]
                    500 "model not loaded" (Raise (Raised "Expecting value"))
                    eq_refl eq_refl)).
    lia.
  - apply (proj2 (failed_status_reraised
                    (Sample.replies (requests_response 200 "" (Ok Sample.plain)))
                    Sample.adapter Sample.hello
                    [Sample.hello_entry] 200 "" (Ok Sample.plain)
                    eq_refl eq_refl)).
    left. lia.
Defined.

(** ** Model discovery *)



(** ** Further properties: the outcomes of the chat operation *)

Lemma chat_mapping_raises requests_post self req e :
  convert_messages self req = Raise e ->
  chat requests_post self req = ([], Raise e).
Proof.
  intro H. unfold chat, io_bind, lift. rewrite H. reflexivity.
Qed.

Lemma chat_post_raises requests_post self req messages e :
  convert_messages self req = Ok messages ->
  requests_post (chat_url self) (request_data req messages) chat_headers = Raise e ->
  chat requests_post self req =
  ([Post (chat_url self) (request_data req messages) chat_headers], Raise e).
Proof.
  intros Hmap Hpost. unfold chat, io_bind, lift, emit. rewrite Hmap, Hpost.
  reflexivity.
Qed.

(** A response comes out of [chat] only along one path. *)
Lemma chat_Ok_inv requests_post self req resp :
  snd (chat requests_post self req) = Ok resp ->
  exists messages response response_data,
    convert_messages self req = Ok messages /\
    requests_post (chat_url self) (request_data req messages) chat_headers =
      Ok response /\
    Response.raise_for_status response = None /\
    Response.json response = Ok response_data /\
    chat_return req response_data = Ok resp /\
    fst (chat requests_post self req) =
      [Post (chat_url self) (request_data req messages) chat_headers].
Proof.
  destruct (convert_messages self req) as [messages|e] eqn:Hmap.
  - destruct (requests_post (chat_url self) (request_data req messages) chat_headers)
      as [response|e] eqn:Hpost.
    + rewrite (chat_exchange _ _ _ _ _ Hmap Hpost). cbv zeta.
      destruct (Response.raise_for_status response) as [e|] eqn:Hstatus;
        [discriminate|].
      destruct (Response.json response) as [response_data|e] eqn:Hjson;
        [|discriminate].
      simpl. intro H. exists messages, response, response_data.
      repeat split; assumption.
    + rewrite (chat_post_raises _ _ _ _ _ Hmap Hpost). discriminate.
  - rewrite (chat_mapping_raises _ _ _ _ Hmap). discriminate.
Qed.

(** X1: [chat] never sends more than one request and only ever prints
    after it: its trace is empty, or the one POST to the chat endpoint, or
    that POST followed by one line that starts with "API Response: ". *)
Theorem chat_trace_shapes requests_post (self : OllamaAdapter.t)
  (req : LLMChatRequest.t) :
  let url :=
    (OllamaConfig.api_base (OllamaAdapter.config self) ++ "/api/chat")%string in
  let headers := [("Content-Type", "application/json")] in
  fst (chat requests_post self req) = [] \/
  (exists data, fst (chat requests_post self req) = [Post url data headers]) \/
  (exists data body,
     fst (chat requests_post self req) =
       [Post url data headers; Printed ("API Response: " ++ body)%string]).
Proof.
  cbv zeta.
  destruct (convert_messages self req) as [messages|e] eqn:Hmap.
  - right.
    destruct (requests_post (chat_url self) (request_data req messages) chat_headers)
      as [response|e] eqn:Hpost.
    + rewrite (chat_exchange _ _ _ _ _ Hmap Hpost). cbv zeta.
      destruct (Response.raise_for_status response) as [e|].
      * right. eexists. eexists. reflexivity.
      * destruct (Response.json response) as [response_data|e].
        -- left. eexists. reflexivity.
        -- right. eexists. eexists. reflexivity.
    + rewrite (chat_post_raises _ _ _ _ _ Hmap Hpost). left. eexists. reflexivity.
  - rewrite (chat_mapping_raises _ _ _ _ Hmap). left. reflexivity.
Qed.

(** X2: a response is returned only when the request was mapped, the POST
    was answered, the status check passed and the body was decoded; the
    trace is then the one POST, with nothing printed, and the response is
    the mapping of the decoded body. *)
Theorem response_only_after_success requests_post (self : OllamaAdapter.t)
  (req : LLMChatRequest.t) (resp : LLMChatResponse.t) :
  snd (chat requests_post self req) = Ok resp ->
  exists messages response response_data,
    convert_messages self req = Ok messages /\
    requests_post
      (OllamaConfig.api_base (OllamaAdapter.config self) ++ "/api/chat")%string
      (request_data req messages)
      [("Content-Type", "application/json")] = Ok response /\
    Response.raise_for_status response = None /\
    Response.json response = Ok response_data /\
    chat_return req response_data = Ok resp /\
    fst (chat requests_post self req) =
      [Post (OllamaConfig.api_base (OllamaAdapter.config self) ++ "/api/chat")%string
         (request_data req messages)
         [("Content-Type", "application/json")]].
Proof.
  intro H. exact (chat_Ok_inv _ _ _ _ H).
Qed.

(** What a returned response is made of. *)
Lemma chat_return_Ok_inv req response_data resp :
  chat_return req response_data = Ok resp ->
  exists content p c total usage,
    convert_llm_response response_data = Ok content /\
    getitem response_data "prompt_eval_count" = Ok p /\
    getitem response_data "eval_count" = Ok c /\
    add p c = Ok total /\
    Usage_init p c total = Ok usage /\
    resp =
      {| LLMChatResponse.model := LLMChatRequest.model req;
         LLMChatResponse.message :=
           {| Message.content := content;
              Message.role := "assistant";
              Message.finish_reason := "stop";
              Message.tool_calls := None |};
         LLMChatResponse.usage := usage |}.
Proof.
  intro H.
  destruct (convert_llm_response response_data) as [content|e] eqn:Hcontent.
  - rewrite (chat_return_usage _ _ _ Hcontent) in H.
    apply bind_Ok in H. destruct H as [message [Hmessage H]].
    apply Message_init_Ok in Hmessage. destruct Hmessage as [-> _].
    apply bind_Ok in H. destruct H as [p [Hp H]].
    apply bind_Ok in H. destruct H as [c [Hc H]].
    apply bind_Ok in H. destruct H as [total [Htotal H]].
    apply bind_Ok in H. destruct H as [usage [Husage H]].
    injection H as <-.
    exists content, p, c, total, usage. repeat split; assumption.
  - unfold chat_return in H. rewrite Hcontent in H. discriminate H.
Qed.

(** X3: every response [chat] returns carries the model of the request,
    the role "assistant", the finish reason "stop" and no structured tool
    calls, whatever the backend answered. *)
Theorem returned_response_fixed_fields requests_post (self : OllamaAdapter.t)
  (req : LLMChatRequest.t) (resp : LLMChatResponse.t) :
  snd (chat requests_post self req) = Ok resp ->
  LLMChatResponse.model resp = LLMChatRequest.model req /\
  Message.role (LLMChatResponse.message resp) = "assistant" /\
  Message.finish_reason (LLMChatResponse.message resp) = "stop" /\
  Message.tool_calls (LLMChatResponse.message resp) = None.
Proof.
  intro H. apply chat_Ok_inv in H.
  destruct H as [messages [response [response_data [_ [_ [_ [_ [H _]]]]]]]].
  apply chat_return_Ok_inv in H.
  destruct H as [content [p [c [total [usage [_ [_ [_ [_ [_ ->]]]]]]]]]].
  repeat split.
Qed.

(** X4: in every response [chat] returns, the content sequence is the one
    [convert_llm_response] builds from the decoded body; and when the
    body holds the integers [p] and [c] under ["prompt_eval_count"] and
    ["eval_count"], the usage is [p], [c] and [p + c], so that the total
    is the sum of the two counts. *)
Theorem returned_usage_adds_up requests_post (self : OllamaAdapter.t)
  (req : LLMChatRequest.t) (resp : LLMChatResponse.t) :
  snd (chat requests_post self req) = Ok resp ->
  exists messages response response_data,
    requests_post
      (OllamaConfig.api_base (OllamaAdapter.config self) ++ "/api/chat")%string
      (request_data req messages)
      [("Content-Type", "application/json")] = Ok response /\
    Response.json response = Ok response_data /\
    convert_llm_response response_data =
      Ok (Message.content (LLMChatResponse.message resp)) /\
    (forall p c,
       getitem response_data "prompt_eval_count" = Ok (VInt p) ->
       getitem response_data "eval_count" = Ok (VInt c) ->
       LLMChatResponse.usage resp =
         {| Usage.prompt_tokens := p;
            Usage.completion_tokens := c;
            Usage.total_tokens := p + c |} /\
       Usage.total_tokens (LLMChatResponse.usage resp) =
         Usage.prompt_tokens (LLMChatResponse.usage resp) +
         Usage.completion_tokens (LLMChatResponse.usage resp)).
Proof.
  intro H. apply chat_Ok_inv in H.
  destruct H as [messages [response [response_data [_ [Hpost [_ [Hjson [H _]]]]]]]].
  apply chat_return_Ok_inv in H.
  destruct H as [content [pv [cv [total [usage [Hcontent [Hp [Hc [Ht [Hu ->]]]]]]]]]].
  exists messages, response, response_data.
  split; [exact Hpost|]. split; [exact Hjson|]. split; [exact Hcontent|].
  intros p c Hp' Hc'. rewrite Hp in Hp'. rewrite Hc in Hc'.
  injection Hp' as ->. injection Hc' as ->.
  simpl in Ht. injection Ht as <-. simpl in Hu. injection Hu as <-.
  split; reflexivity.
Qed.

(** X5: when the status check passes and decoding the body raises,
    [chat] has sent the one POST, prints the raw body after the words
    "API Response: " and raises the decoding error again. *)
Theorem undecodable_body_reraised requests_post (self : OllamaAdapter.t)
  (req : LLMChatRequest.t) (messages : list value) (response : Response.t)
  (e : exn) :
  convert_messages self req = Ok messages ->
  requests_post
    (OllamaConfig.api_base (OllamaAdapter.config self) ++ "/api/chat")%string
    (request_data req messages)
    [("Content-Type", "application/json")] = Ok response ->
  Response.raise_for_status response = None ->
  Response.json response = Raise e ->
  chat requests_post self req =
  ([Post (OllamaConfig.api_base (OllamaAdapter.config self) ++ "/api/chat")%string
      (request_data req messages)
      [("Content-Type", "application/json")];
    Printed ("API Response: " ++ Response.text response)%string],
   Raise e).
Proof.
  intros Hmap Hpost Hstatus Hjson.
  rewrite (chat_exchange _ _ _ _ _ Hmap Hpost), Hstatus, Hjson. reflexivity.
Qed.

(** X6: the errors outside the [try] are raised without the diagnostic
    line.  When the messages cannot be mapped nothing is sent; when the
    POST itself raises, or when the decoded body cannot be mapped to a
    response, the trace is the one POST and the error is the one raised. *)
Theorem errors_outside_try_not_printed requests_post (self : OllamaAdapter.t)
  (req : LLMChatRequest.t) :
  (forall e,
     convert_messages self req = Raise e ->
     chat requests_post self req = ([], Raise e))
  /\ (forall messages,
        convert_messages self req = Ok messages ->
        let sent :=
          Post (OllamaConfig.api_base (OllamaAdapter.config self) ++ "/api/chat")%string
            (request_data req messages)
            [("Content-Type", "application/json")] in
        (forall e,
           requests_post
             (OllamaConfig.api_base (OllamaAdapter.config self) ++ "/api/chat")%string
             (request_data req messages)
             [("Content-Type", "application/json")] = Raise e ->
           chat requests_post self req = ([sent], Raise e))
        /\ (forall response response_data e,
              requests_post
                (OllamaConfig.api_base (OllamaAdapter.config self) ++ "/api/chat")%string
                (request_data req messages)
                [("Content-Type", "application/json")] = Ok response ->
              Response.raise_for_status response = None ->
              Response.json response = Ok response_data ->
              chat_return req response_data = Raise e ->
              chat requests_post self req = ([sent], Raise e))).
Proof.
  split.
  - intros e H. apply chat_mapping_raises. exact H.
  - intros messages Hmap. cbv zeta. split.
    + intros e Hpost. exact (chat_post_raises _ _ _ _ _ Hmap Hpost).
    + intros response response_data e Hpost Hstatus Hjson Hret.
      rewrite (chat_exchange _ _ _ _ _ Hmap Hpost), Hstatus, Hjson, Hret.
      reflexivity.
Qed.

(** ** Further properties: the response mapping *)

Lemma for_each_forallb {A B : Type} (body : A -> result B) (p : B -> bool) :
  (forall a b, body a = Ok b -> p b = true) ->
  forall l bs, for_each body l = Ok bs -> forallb p bs = true.
Proof.
  intro Hbody. induction l as [|a l IH]; simpl; intros bs H.
  - injection H as <-. reflexivity.
  - apply bind_Ok in H. destruct H as [b [Hb H]].
    apply bind_Ok in H. destruct H as [bs' [Hbs H]].
    injection H as <-. simpl. rewrite (Hbody a b Hb), (IH bs' Hbs). reflexivity.
Qed.

(** The loop stops at the first item on which the body raises. *)
Lemma for_each_first_raise {A B : Type} (body : A -> result B) :
  forall before bs a after e,
    Forall2 (fun x b => body x = Ok b) before bs ->
    body a = Raise e ->
    for_each body (before ++ a :: after) = Raise e.
Proof.
  intros before bs a after e Hbefore Ha.
  induction Hbefore as [|x b before bs Hx _ IH]; simpl.
  - rewrite Ha. reflexivity.
  - rewrite Hx. simpl. rewrite IH. reflexivity.
Qed.

Lemma for_each_Ok_Forall2 {A B : Type} (body : A -> result B) :
  forall l bs, for_each body l = Ok bs -> Forall2 (fun a b => body a = Ok b) l bs.
Proof.
  induction l as [|a l IH]; simpl; intros bs H.
  - injection H as <-. constructor.
  - apply bind_Ok in H. destruct H as [b [Hb H]].
    apply bind_Ok in H. destruct H as [bs' [Hbs H]].
    injection H as <-. constructor; [exact Hb | apply IH; exact Hbs].
Qed.

Lemma tool_call_content_is_tool_call call part :
  tool_call_content call = Ok part -> is_tool_call part = true.
Proof.
  unfold tool_call_content, LLMToolCallContent_init. intro H.
  repeat (apply bind_Ok in H; destruct H as [? [_ H]]).
  injection H as <-. reflexivity.
Qed.

Lemma tool_call_entry_entry entry name args :
  entry_of entry name args ->
  tool_call_entry entry =
    Ok {| ToolCall.function :=
            {| Function.name := Some name; Function.arguments := args |} |}.
Proof.
  intros [fields [f [-> [Hf [Hn [Hargs Hkind]]]]]].
  unfold tool_call_entry. simpl. rewrite Hf. simpl. rewrite Hn. simpl.
  rewrite <- Hargs. unfold Function_init. simpl.
  destruct Hkind as [-> | [d ->]]; reflexivity.
Qed.

(** X7: whenever [convert_llm_response] returns, the content sequence is
    one text part, holding the message's ["content"] or the empty string
    when the key is absent, followed by tool call parts only; when the
    message's ["tool_calls"] is a list there is one tool call part per
    entry, and when it is absent or [None] the text part stands alone. *)
Theorem content_text_then_tool_calls (response_data : value)
  (content : list LLMChatContentPart) :
  convert_llm_response response_data = Ok content ->
  exists calls m,
    getitem response_data "message" = Ok (VDict m) /\
    content =
      LLMChatTextContent
        (match lookup "content" m with Some (VStr s) => s | _ => "" end)
      :: calls /\
    forallb is_tool_call calls = true /\
    (forall entries,
       lookup "tool_calls" m = Some (VList entries) ->
       List.length calls = List.length entries) /\
    (lookup "tool_calls" m = None \/ lookup "tool_calls" m = Some VNone ->
     calls = []).
Proof.
  unfold convert_llm_response. intro H.
  apply bind_Ok in H. destruct H as [message [Hm H]].
  apply bind_Ok in H. destruct H as [text [Htext H]].
  apply bind_Ok in H. destruct H as [part [Hpart H]].
  rewrite Hm in H. simpl in H.
  destruct message as [| | | | |m]; try discriminate Htext.
  simpl in Htext, H. injection Htext as <-.
  unfold LLMChatTextContent_init in Hpart.
  apply bind_Ok in Hpart. destruct Hpart as [s [Hs Hpart]]. injection Hpart as <-.
  assert (Hcontent :
    s = match lookup "content" m with Some (VStr t) => t | _ => "" end).
  { destruct (lookup "content" m) as [v|].
    - destruct v; try discriminate Hs. injection Hs as ->. reflexivity.
    - injection Hs as <-. reflexivity. }
  clear Hs. subst s.
  destruct (lookup "tool_calls" m) as [tc|] eqn:Htc.
  - destruct (truthy tc) eqn:Htruthy.
    + simpl in H.
      apply bind_Ok in H. destruct H as [items [Hitems H]].
      apply bind_Ok in H. destruct H as [calls [Hcalls H]].
      injection H as <-.
      exists calls, m.
      split; [exact Hm|]. split; [reflexivity|].
      split; [exact (for_each_forallb _ _ tool_call_content_is_tool_call _ _ Hcalls)|].
      split.
      * intros entries Hentries. rewrite Htc in Hentries.
        injection Hentries as ->. simpl in Hitems. injection Hitems as <-.
        exact (for_each_length _ _ _ Hcalls).
      * intros [Hn | Hn]; rewrite Htc in Hn; [discriminate Hn|].
        injection Hn as ->. discriminate Htruthy.
    + injection H as <-. exists [], m.
      split; [exact Hm|]. split; [reflexivity|]. split; [reflexivity|].
      split; [|reflexivity].
      intros entries Hentries. rewrite Htc in Hentries.
      injection Hentries as ->.
      destruct entries; [reflexivity | discriminate Htruthy].
  - simpl in H. injection H as <-. exists [], m.
    split; [exact Hm|]. split; [reflexivity|]. split; [reflexivity|].
    split; [|reflexivity].
    intros entries Hentries. rewrite Htc in Hentries. discriminate Hentries.
Qed.

(** X8: a tool call entry without ["function"], or whose function has no
    ["name"], makes both mappings raise a [KeyError] for that key once the
    entries before it are read: no part of the content sequence is
    returned.  A missing ["arguments"] is no error. *)
Theorem malformed_tool_call_raises (response_data : value)
  (m fields : list (string * value)) (good rest : list value) (k : string) :
  getitem response_data "message" = Ok (VDict m) ->
  lookup "content" m = None \/ (exists s, lookup "content" m = Some (VStr s)) ->
  lookup "tool_calls" m = Some (VList (good ++ VDict fields :: rest)) ->
  Forall (fun entry => exists name args, entry_of entry name args) good ->
  (lookup "function" fields = None /\ k = "function") \/
  (exists f,
     lookup "function" fields = Some (VDict f) /\
     lookup "name" f = None /\ k = "name") ->
  convert_llm_response response_data = Raise (KeyError k) /\
  resolve_tool_calls_form_content response_data = Raise (KeyError k).
Proof.
  intros Hm Hcontent Htc Hgood Hbad.
  assert (Htruthy : truthy (VList (good ++ VDict fields :: rest)) = true).
  { simpl. rewrite length_app. simpl. rewrite Nat.add_succ_r. reflexivity. }
  assert (Hc : tool_call_content (VDict fields) = Raise (KeyError k)).
  { unfold tool_call_content. simpl.
    destruct Hbad as [[-> ->] | [f [-> [Hn ->]]]]; simpl; [|rewrite Hn]; reflexivity. }
  assert (He : tool_call_entry (VDict fields) = Raise (KeyError k)).
  { unfold tool_call_entry. simpl.
    destruct Hbad as [[-> ->] | [f [-> [Hn ->]]]]; simpl; [|rewrite Hn]; reflexivity. }
  assert (Hgc : exists parts,
            Forall2 (fun x b => tool_call_content x = Ok b) good parts).
  { clear -Hgood. induction Hgood as [|entry good [name [args H]] _ [parts IH]].
    - exists []. constructor.
    - eexists (_ :: parts). constructor; [|exact IH].
      apply tool_call_content_entry. exact H. }
  assert (Hge : exists calls,
            Forall2 (fun x b => tool_call_entry x = Ok b) good calls).
  { clear -Hgood. induction Hgood as [|entry good [name [args H]] _ [calls IH]].
    - exists []. constructor.
    - eexists (_ :: calls). constructor; [|exact IH].
      apply tool_call_entry_entry. exact H. }
  destruct Hgc as [parts Hgc]. destruct Hge as [calls Hge].
  split.
  - unfold convert_llm_response. rewrite Hm. simpl. rewrite Htc, Htruthy.
    destruct Hcontent as [-> | [s ->]]; simpl;
      rewrite (for_each_first_raise _ _ _ _ _ _ Hgc Hc); reflexivity.
  - unfold resolve_tool_calls_form_content. rewrite Hm. simpl.
    rewrite Htc, Htruthy. simpl.
    rewrite (for_each_first_raise _ _ _ _ _ _ Hge He). reflexivity.
Qed.

(** X9: when the decoded body is a dict without ["message"], [chat]
    raises [KeyError] for that key after the one POST and prints nothing,
    whether or not the counts are there. *)
Theorem missing_message_raises requests_post (self : OllamaAdapter.t)
  (req : LLMChatRequest.t) (messages : list value) (response : Response.t)
  (d : list (string * value)) :
  convert_messages self req = Ok messages ->
  requests_post
    (OllamaConfig.api_base (OllamaAdapter.config self) ++ "/api/chat")%string
    (request_data req messages)
    [("Content-Type", "application/json")] = Ok response ->
  Response.raise_for_status response = None ->
  Response.json response = Ok (VDict d) ->
  lookup "message" d = None ->
  chat requests_post self req =
  ([Post (OllamaConfig.api_base (OllamaAdapter.config self) ++ "/api/chat")%string
      (request_data req messages)
      [("Content-Type", "application/json")]],
   Raise (KeyError "message")).
Proof.
  intros Hmap Hpost Hstatus Hjson Hmessage.
  rewrite (chat_exchange _ _ _ _ _ Hmap Hpost), Hstatus, Hjson. cbv zeta.
  unfold chat_return, convert_llm_response. simpl. rewrite Hmessage. reflexivity.
Qed.

(** X10: a plain answer is mapped in full.  When the decoded body has a
    message with a string content and no tool calls, and both counts,
    [chat] returns, after the one POST, the response with the model of the
    request, the one text part, role "assistant", finish reason "stop", no
    structured tool calls, and the usage of the two counts and their sum. *)
Theorem plain_answer_returned requests_post (self : OllamaAdapter.t)
  (req : LLMChatRequest.t) (messages : list value) (response : Response.t)
  (d m : list (string * value)) (s : string) (p c : Z) :
  convert_messages self req = Ok messages ->
  requests_post
    (OllamaConfig.api_base (OllamaAdapter.config self) ++ "/api/chat")%string
    (request_data req messages)
    [("Content-Type", "application/json")] = Ok response ->
  Response.raise_for_status response = None ->
  Response.json response = Ok (VDict d) ->
  lookup "message" d = Some (VDict m) ->
  lookup "content" m = Some (VStr s) ->
  lookup "tool_calls" m = None \/
  lookup "tool_calls" m = Some VNone \/
  lookup "tool_calls" m = Some (VList []) ->
  lookup "prompt_eval_count" d = Some (VInt p) ->
  lookup "eval_count" d = Some (VInt c) ->
  chat requests_post self req =
  ([Post (OllamaConfig.api_base (OllamaAdapter.config self) ++ "/api/chat")%string
      (request_data req messages)
      [("Content-Type", "application/json")]],
   Ok {| LLMChatResponse.model := LLMChatRequest.model req;
         LLMChatResponse.message :=
           {| Message.content := [LLMChatTextContent s];
              Message.role := "assistant";
              Message.finish_reason := "stop";
              Message.tool_calls := None |};
         LLMChatResponse.usage :=
           {| Usage.prompt_tokens := p;
              Usage.completion_tokens := c;
              Usage.total_tokens := p + c |} |}).
Proof.
  intros Hmap Hpost Hstatus Hjson Hmessage Hcontent Htc Hp Hc.
  rewrite (chat_exchange _ _ _ _ _ Hmap Hpost), Hstatus, Hjson. cbv zeta.
  assert (Hconv : convert_llm_response (VDict d) = Ok [LLMChatTextContent s]).
  { unfold convert_llm_response. simpl. rewrite Hmessage. simpl.
    rewrite Hcontent. simpl.
    destruct Htc as [-> | [-> | ->]]; reflexivity. }
  rewrite (chat_return_usage _ _ _ Hconv). simpl. rewrite Hp, Hc. reflexivity.
Qed.

(** ** Further properties: the payload *)

(** The filter keeps the value a key has when that value is not [None]. *)
Lemma not_None_items_kept k v :
  forall d,
    lookup k d = Some v -> is_not_None v = true ->
    lookup k (not_None_items d) = Some v.
Proof.
  induction d as [|[k' v'] d IH]; simpl; intros Hk Hv.
  - discriminate Hk.
  - destruct (String.eqb k k') eqn:Heq.
    + injection Hk as ->. rewrite Hv. simpl. rewrite Heq. reflexivity.
    + destruct (is_not_None v'); simpl; [rewrite Heq|]; apply IH; assumption.
Qed.

(** X11: every POST of [chat] goes to [{api_base}/api/chat] with the one
    header [Content-Type: application/json], and its payload is a dict
    that holds the mapped messages under ["messages"], [False] under
    ["stream"] and, when the request names a model, that model under
    ["model"]. *)
Theorem posted_payload_fields requests_post (self : OllamaAdapter.t)
  (req : LLMChatRequest.t) url data headers :
  In (Post url data headers) (fst (chat requests_post self req)) ->
  url = (OllamaConfig.api_base (OllamaAdapter.config self) ++ "/api/chat")%string /\
  headers = [("Content-Type", "application/json")] /\
  exists top messages,
    data = VDict top /\
    convert_messages self req = Ok messages /\
    lookup "messages" top = Some (VList messages) /\
    lookup "stream" top = Some (VBool false) /\
    (LLMChatRequest.model req <> VNone ->
     lookup "model" top = Some (LLMChatRequest.model req)).
Proof.
  intro H. apply chat_posts in H. destruct H as [messages [Hmap [-> [-> ->]]]].
  split; [reflexivity|]. split; [reflexivity|].
  rewrite request_data_fields. eexists. exists messages.
  split; [reflexivity|]. split; [exact Hmap|].
  destruct (LLMChatRequest.model req); repeat split; try reflexivity.
  intro Hn. contradiction Hn. reflexivity.
Qed.

(** X12: a sampling parameter that is set reaches the backend unchanged:
    the ["options"] of every posted payload hold [temperature], [top_p]
    and [stop] under their own names and [max_tokens] under
    ["num_predict"], and a non-empty list of tools is under ["tools"] as
    the list of the dumps of the tools, in order. *)
Theorem set_options_kept requests_post (self : OllamaAdapter.t)
  (req : LLMChatRequest.t) url data headers :
  In (Post url data headers) (fst (chat requests_post self req)) ->
  exists top options,
    data = VDict top /\
    lookup "options" top = Some (VDict options) /\
    (LLMChatRequest.temperature req <> VNone ->
     lookup "temperature" options = Some (LLMChatRequest.temperature req)) /\
    (LLMChatRequest.top_p req <> VNone ->
     lookup "top_p" options = Some (LLMChatRequest.top_p req)) /\
    (LLMChatRequest.max_tokens req <> VNone ->
     lookup "num_predict" options = Some (LLMChatRequest.max_tokens req)) /\
    (LLMChatRequest.stop req <> VNone ->
     lookup "stop" options = Some (LLMChatRequest.stop req)) /\
    (forall tool rest,
       LLMChatRequest.tools req = Some (tool :: rest) ->
       lookup "tools" options = Some (VList (map Tool.model_dump (tool :: rest)))).
Proof.
  intro H. apply chat_posts in H. destruct H as [messages [_ [_ [-> _]]]].
  rewrite request_data_fields.
  eexists. exists (request_options req). split; [reflexivity|].
  assert (Hset : forall v, v <> VNone -> is_not_None v = true).
  { intros v Hv. destruct v; try reflexivity. contradiction Hv. reflexivity. }
  split; [destruct (is_not_None (LLMChatRequest.model req)); reflexivity|].
  unfold request_options.
  repeat split.
  - intro Hv. apply not_None_items_kept; [reflexivity | apply Hset; exact Hv].
  - intro Hv. apply not_None_items_kept; [reflexivity | apply Hset; exact Hv].
  - intro Hv. apply not_None_items_kept; [reflexivity | apply Hset; exact Hv].
  - intro Hv. apply not_None_items_kept; [reflexivity | apply Hset; exact Hv].
  - intros tool rest Htools. rewrite Htools.
    apply not_None_items_kept; reflexivity.
Qed.

(** ** Further properties: media and messages *)

(** X13: [resolve_media_ids] asks the media manager for every identifier
    in order: when it returns, the result has one payload per identifier,
    each the manager's payload for the identifier at its place; and when
    the manager raises for an identifier after resolving the ones before
    it, that error is raised. *)
Theorem media_ids_resolved_in_order (media_ids : list string)
  (media_manager : MediaManager) :
  (forall payloads,
     resolve_media_ids media_ids media_manager = Ok payloads <->
     Forall2 (fun media_id payload => media_manager media_id = Ok payload)
       media_ids payloads)
  /\ (forall before media_id after resolved e,
        media_ids = before ++ media_id :: after ->
        Forall2 (fun i payload => media_manager i = Ok payload) before resolved ->
        media_manager media_id = Raise e ->
        resolve_media_ids media_ids media_manager = Raise e).
Proof.
  unfold resolve_media_ids. split.
  - intro payloads. split.
    + apply for_each_Ok_Forall2.
    + apply for_each_Forall2.
  - intros before media_id after resolved e -> Hbefore Hid.
    exact (for_each_first_raise _ _ _ _ _ _ Hbefore Hid).
Qed.

(** Parts without an image leave [images] empty and never raise. *)
Lemma no_image_parts_loop self role :
  forall parts st,
    existsb is_image parts = false ->
    Locals.images st = [] ->
    exists st',
      for_loop (part_body self role) parts st = Ok st' /\
      Locals.images st' = [].
Proof.
  induction parts as [|part parts IH]; simpl; intros st Hparts Himages.
  - exists st. split; [reflexivity | exact Himages].
  - apply orb_false_iff in Hparts. destruct Hparts as [Hpart Hparts].
    destruct part; try discriminate Hpart; simpl.
    + rewrite emit_message_no_images by (simpl; exact Himages). simpl.
      apply IH; [exact Hparts | reflexivity].
    + apply IH; assumption.
    + rewrite emit_message_no_images by exact Himages. simpl.
      apply IH; [exact Hparts | reflexivity].
Qed.

(** X14: the first image of a message of a role other than "tool" ends
    the mapping.  The media manager is asked for its identifier: when it
    raises, the mapping of the message raises that error; when it
    answers, the mapping raises [TypeError]. *)
Theorem first_image_ends_mapping (self : OllamaAdapter.t)
  (messages : list value) (msg : LLMChatMessage.t)
  (before after : list LLMChatContentPart) (media_id : string) :
  String.eqb (LLMChatMessage.role msg) "tool" = false ->
  LLMChatMessage.content msg = before ++ LLMChatImageContent media_id :: after ->
  existsb is_image before = false ->
  message_body self messages msg =
    Raise (match OllamaAdapter.media_manager self media_id with
           | Ok _ => TypeError
           | Raise e => e
           end).
Proof.
  intros Hrole Hparts Hbefore. unfold message_body. rewrite Hrole, Hparts.
  rewrite for_loop_app.
  destruct (no_image_parts_loop self (LLMChatMessage.role msg) before
              {| Locals.text_content := ""; Locals.images := [];
                 Locals.messages := messages |} Hbefore eq_refl)
    as [st [-> Himages]].
  simpl. unfold emit_message. simpl. rewrite Himages. simpl.
  unfold resolve_media_ids. simpl.
  destruct (OllamaAdapter.media_manager self media_id); reflexivity.
Qed.

(** What [messages] holds when a message is reached does not change what
    the message adds. *)
Lemma emit_message_acc self role t i m acc :
  emit_message self role
    {| Locals.text_content := t; Locals.images := i; Locals.messages := acc ++ m |} =
  (st <- emit_message self role
           {| Locals.text_content := t; Locals.images := i; Locals.messages := m |} ;;
   Ok {| Locals.text_content := Locals.text_content st;
         Locals.images := Locals.images st;
         Locals.messages := acc ++ Locals.messages st |}).
Proof.
  unfold emit_message. simpl.
  destruct (negb (Nat.eqb (List.length i) 0)).
  - destruct (resolve_media_ids i (OllamaAdapter.media_manager self)); reflexivity.
  - simpl. rewrite app_assoc. reflexivity.
Qed.

Lemma parts_loop_acc self role acc :
  forall parts t i m,
    for_loop (part_body self role) parts
      {| Locals.text_content := t; Locals.images := i; Locals.messages := acc ++ m |} =
    (st <- for_loop (part_body self role) parts
             {| Locals.text_content := t; Locals.images := i; Locals.messages := m |} ;;
     Ok {| Locals.text_content := Locals.text_content st;
           Locals.images := Locals.images st;
           Locals.messages := acc ++ Locals.messages st |}).
Proof.
  induction parts as [|part parts IH]; intros t i m.
  - reflexivity.
  - assert (Hemit : forall t' i',
      (s' <- emit_message self role
               {| Locals.text_content := t'; Locals.images := i';
                  Locals.messages := acc ++ m |} ;;
       for_loop (part_body self role) parts s') =
      (st <- (s' <- emit_message self role
                      {| Locals.text_content := t'; Locals.images := i';
                         Locals.messages := m |} ;;
              for_loop (part_body self role) parts s') ;;
       Ok {| Locals.text_content := Locals.text_content st;
             Locals.images := Locals.images st;
             Locals.messages := acc ++ Locals.messages st |})).
    { intros t' i'. rewrite emit_message_acc.
      destruct (emit_message self role
                  {| Locals.text_content := t'; Locals.images := i';
                     Locals.messages := m |}) as [[t2 i2 m2]|e]; simpl.
      - apply IH.
      - reflexivity. }
    destruct part; simpl.
    + apply Hemit.
    + apply Hemit.
    + apply IH.
    + apply Hemit.
Qed.

Lemma message_body_acc self acc msg :
  message_body self acc msg =
  (entries <- message_body self [] msg ;; Ok (acc ++ entries)).
Proof.
  unfold message_body.
  destruct (String.eqb (LLMChatMessage.role msg) "tool").
  - destruct (for_each tool_message (LLMChatMessage.content msg)); reflexivity.
  - rewrite <- (app_nil_r acc) at 1. rewrite parts_loop_acc.
    destruct (for_loop (part_body self (LLMChatMessage.role msg))
                (LLMChatMessage.content msg)
                {| Locals.text_content := ""; Locals.images := [];
                   Locals.messages := [] |}); reflexivity.
Qed.

Lemma messages_loop_acc self :
  forall msgs acc,
    for_loop (message_body self) msgs acc =
    (out <- for_loop (message_body self) msgs [] ;; Ok (acc ++ out)).
Proof.
  induction msgs as [|msg msgs IH]; intro acc; simpl.
  - rewrite app_nil_r. reflexivity.
  - rewrite (message_body_acc self acc msg).
    destruct (message_body self [] msg) as [entries|e]; simpl; [|reflexivity].
    rewrite (IH (acc ++ entries)), (IH entries).
    destruct (for_loop (message_body self) msgs []); simpl;
      [rewrite app_assoc|]; reflexivity.
Qed.

(** X15: the messages are mapped one by one and in order: the entries of
    a message do not depend on the messages around it, and the payload of
    a request is the payload of its first messages followed by the
    payload of the remaining ones; an error in either part is the error
    of the whole. *)
Theorem messages_mapped_one_by_one (self : OllamaAdapter.t)
  (req first remaining : LLMChatRequest.t) :
  LLMChatRequest.messages req =
    LLMChatRequest.messages first ++ LLMChatRequest.messages remaining ->
  convert_messages self req =
  (out1 <- convert_messages self first ;;
   out2 <- convert_messages self remaining ;;
   Ok (out1 ++ out2)).
Proof.
  intro H. unfold convert_messages. rewrite H, for_loop_app.
  destruct (for_loop (message_body self) (LLMChatRequest.messages first) [])
    as [out1|e]; simpl; [|reflexivity].
  apply messages_loop_acc.
Qed.

Lemma single_text_loop self (pairs : list (string * string)) :
  (forall p, In p pairs -> String.eqb (fst p) "tool" = false) ->
  forall acc,
    for_loop (message_body self)
      (map (fun p => {| LLMChatMessage.role := fst p;
                        LLMChatMessage.content := [LLMChatTextContent (snd p)] |})
         pairs) acc =
    Ok (acc ++ map (fun p => VDict [("role", VStr (fst p)); ("content", VStr (snd p))])
                 pairs).
Proof.
  induction pairs as [|[role text] pairs IH]; intros Hroles acc; simpl.
  - rewrite app_nil_r. reflexivity.
  - pose proof (Hroles (role, text) (or_introl eq_refl)) as Hrole.
    simpl in Hrole. unfold message_body at 1. simpl. rewrite Hrole. simpl.
    rewrite IH by (intros p Hp; apply Hroles; right; exact Hp).
    rewrite <- app_assoc. reflexivity.
Qed.

(** X16: a request of messages with one text part each, none of role
    "tool", maps one to one: the payload has one entry per message, in
    order, with the role and the text of the message. *)
Theorem single_text_messages_one_to_one (self : OllamaAdapter.t)
  (req : LLMChatRequest.t) (pairs : list (string * string)) :
  LLMChatRequest.messages req =
    map (fun p => {| LLMChatMessage.role := fst p;
                     LLMChatMessage.content := [LLMChatTextContent (snd p)] |})
      pairs ->
  (forall p, In p pairs -> String.eqb (fst p) "tool" = false) ->
  convert_messages self req =
    Ok (map (fun p => VDict [("role", VStr (fst p)); ("content", VStr (snd p))])
          pairs).
Proof.
  intros Hreq Hroles. unfold convert_messages. rewrite Hreq.
  rewrite (single_text_loop self pairs Hroles []). reflexivity.
Qed.

(** X17: tool call parts are not sent back: in a message of a role other
    than "tool", they add no entry and no text, so the message maps as it
    does without them. *)
Theorem tool_call_parts_not_sent (self : OllamaAdapter.t)
  (messages : list value) (msg : LLMChatMessage.t) :
  String.eqb (LLMChatMessage.role msg) "tool" = false ->
  message_body self messages msg =
  message_body self messages
    {| LLMChatMessage.role := LLMChatMessage.role msg;
       LLMChatMessage.content :=
         filter (fun part => negb (is_tool_call part)) (LLMChatMessage.content msg) |}.
Proof.
  intro Hrole. unfold message_body. simpl. rewrite Hrole.
  assert (H : forall parts st,
            for_loop (part_body self (LLMChatMessage.role msg)) parts st =
            for_loop (part_body self (LLMChatMessage.role msg))
              (filter (fun part => negb (is_tool_call part)) parts) st).
  { induction parts as [|part parts IH]; intro st.
    - reflexivity.
    - destruct part; simpl;
        try (destruct (emit_message self (LLMChatMessage.role msg) _);
             simpl; [apply IH | reflexivity]).
      apply IH. }
  rewrite <- H. reflexivity.
Qed.

Lemma for_each_Ok_Forall {A B : Type} (body : A -> result B) :
  forall l bs,
    for_each body l = Ok bs ->
    Forall (fun b => exists a, In a l /\ body a = Ok b) bs.
Proof.
  induction l as [|a l IH]; simpl; intros bs H.
  - injection H as <-. constructor.
  - apply bind_Ok in H. destruct H as [b [Hb H]].
    apply bind_Ok in H. destruct H as [bs' [Hbs H]].
    injection H as <-. constructor.
    + exists a. split; [left; reflexivity | exact Hb].
    + apply IH in Hbs. apply Forall_forall. intros x Hx.
      rewrite Forall_forall in Hbs. destruct (Hbs x Hx) as [a' [Hin Ha']].
      exists a'. split; [right; exact Hin | exact Ha'].
Qed.

Lemma parts_loop_entries self role :
  forall parts st st',
    for_loop (part_body self role) parts st = Ok st' ->
    exists texts,
      Locals.messages st' =
      Locals.messages st ++ map (backend_message role) texts.
Proof.
  assert (Hemit : forall st0 st1, emit_message self role st0 = Ok st1 ->
            Locals.messages st1 =
            Locals.messages st0 ++ [backend_message role (Locals.text_content st0)]).
  { intros st0 st1 H. unfold emit_message in H.
    apply bind_Ok in H. destruct H as [_ [_ H]]. injection H as <-. reflexivity. }
  induction parts as [|part parts IH]; simpl; intros st st' H.
  - injection H as <-. exists []. simpl. rewrite app_nil_r. reflexivity.
  - apply bind_Ok in H. destruct H as [st1 [H1 H]].
    apply IH in H. destruct H as [texts H].
    destruct part; simpl in H1;
      try (apply Hemit in H1; simpl in H1; rewrite H, H1, <- app_assoc;
           eexists (_ :: texts); reflexivity).
    injection H1 as <-. exists texts. exact H.
Qed.

(** X18: every entry of a mapped payload comes from a message of the
    request and has one of two forms.  A message of another role than
    "tool" gives entries with its role and a string content and nothing
    else; a "tool" message gives, for a tool result among its parts, the
    entry with role "tool", the content and the name of the part.  No
    entry has an ["images"] key. *)
Theorem payload_entries_shape (self : OllamaAdapter.t) (req : LLMChatRequest.t)
  (out : list value) :
  convert_messages self req = Ok out ->
  Forall
    (fun entry =>
       exists msg fields,
         In msg (LLMChatRequest.messages req) /\
         entry = VDict fields /\
         lookup "role" fields = Some (VStr (LLMChatMessage.role msg)) /\
         lookup "images" fields = None /\
         ((String.eqb (LLMChatMessage.role msg) "tool" = false /\
           exists s,
             fields = [("role", VStr (LLMChatMessage.role msg)); ("content", VStr s)])
          \/
          (LLMChatMessage.role msg = "tool" /\
           exists name content,
             In (LLMToolResultContent name content) (LLMChatMessage.content msg) /\
             fields = [("role", VStr "tool"); ("content", content);
                       ("name", VStr name)])))
    out.
Proof.
  unfold convert_messages.
  set (P := fun entry : value => _).
  assert (Hbody : forall msg acc out',
            In msg (LLMChatRequest.messages req) ->
            message_body self acc msg = Ok out' ->
            Forall P acc -> Forall P out').
  { intros msg acc out' Hin H Hacc. unfold message_body in H.
    destruct (String.eqb (LLMChatMessage.role msg) "tool") eqn:Hrole.
    - apply String.eqb_eq in Hrole.
      apply bind_Ok in H. destruct H as [entries [Hentries H]]. injection H as <-.
      apply Forall_app. split; [exact Hacc|].
      apply for_each_Ok_Forall in Hentries.
      apply Forall_forall. intros entry Hentry.
      rewrite Forall_forall in Hentries.
      destruct (Hentries entry Hentry) as [part [Hpart Hmsg]].
      destruct part; try discriminate Hmsg. simpl in Hmsg. injection Hmsg as <-.
      exists msg. eexists. split; [exact Hin|]. split; [reflexivity|].
      rewrite Hrole. split; [reflexivity|]. split; [reflexivity|].
      right. split; [reflexivity|]. exists name, content.
      split; [exact Hpart | reflexivity].
    - apply bind_Ok in H. destruct H as [st [Hst H]]. injection H as <-.
      apply parts_loop_entries in Hst. destruct Hst as [texts ->]. simpl.
      apply Forall_app. split; [exact Hacc|].
      apply Forall_forall. intros entry Hentry. apply in_map_iff in Hentry.
      destruct Hentry as [s [<- _]].
      exists msg. eexists. split; [exact Hin|]. split; [reflexivity|].
      split; [reflexivity|]. split; [reflexivity|].
      left. split; [exact Hrole|]. exists s. reflexivity. }
  assert (Hloop : forall msgs,
            incl msgs (LLMChatRequest.messages req) ->
            forall acc out',
              for_loop (message_body self) msgs acc = Ok out' ->
              Forall P acc -> Forall P out').
  { induction msgs as [|msg msgs IH]; simpl; intros Hincl acc out' H Hacc.
    - injection H as <-. exact Hacc.
    - apply bind_Ok in H. destruct H as [mid [Hmid H]].
      apply (IH (fun x Hx => Hincl x (or_intror Hx)) mid out' H).
      apply (Hbody msg acc mid (Hincl msg (or_introl eq_refl)) Hmid Hacc). }
  intro H. apply (Hloop _ (incl_refl _) [] out H). constructor.
Qed.

(** ** Further properties: model discovery *)

(** X19: [auto_detect_models] sends exactly one GET, to
    [{api_base}/api/tags], and nothing else, whatever the outcome; an
    error of the GET itself, and an error of decoding the body after a
    passed status check, are raised to the caller. *)
Theorem model_discovery_one_get session_get (self : OllamaAdapter.t) :
  let url :=
    (OllamaConfig.api_base (OllamaAdapter.config self) ++ "/api/tags")%string in
  fst (auto_detect_models session_get self) = [HttpGet url]
  /\ (forall e,
        session_get url = Raise e ->
        snd (auto_detect_models session_get self) = Raise e)
  /\ (forall response e,
        session_get url = Ok response ->
        Response.raise_for_status response = None ->
        Response.json response = Raise e ->
        snd (auto_detect_models session_get self) = Raise e).
Proof.
  cbv zeta. unfold auto_detect_models, io_bind, emit, lift, tags_url.
  repeat split.
  - destruct (session_get _); reflexivity.
  - intros e H. rewrite H. reflexivity.
  - intros response e H Hstatus Hjson. rewrite H. cbv zeta.
    rewrite Hstatus, Hjson. reflexivity.
Qed.

(** X20: on a body of another shape model discovery raises and returns no
    partial list: [KeyError] for ["models"] when the decoded dict has no
    such key, and [KeyError] for ["name"] when an entry of the list has
    none, however many entries before it have one.  When it returns, the
    list has one name per entry. *)
Theorem model_discovery_shape_errors session_get (self : OllamaAdapter.t)
  (response : Response.t) (response_data : value) :
  session_get
    (OllamaConfig.api_base (OllamaAdapter.config self) ++ "/api/tags")%string =
    Ok response ->
  Response.raise_for_status response = None ->
  Response.json response = Ok response_data ->
  (forall d,
     response_data = VDict d -> lookup "models" d = None ->
     snd (auto_detect_models session_get self) = Raise (KeyError "models"))
  /\ (forall before names entry after,
        getitem response_data "models" = Ok (VList (before ++ VDict entry :: after)) ->
        Forall2 (fun tag name => getitem tag "name" = Ok name) before names ->
        lookup "name" entry = None ->
        snd (auto_detect_models session_get self) = Raise (KeyError "name"))
  /\ (forall tags names,
        getitem response_data "models" = Ok (VList tags) ->
        snd (auto_detect_models session_get self) = Ok names ->
        List.length names = List.length tags).
Proof.
  intros Hget Hstatus Hjson.
  unfold auto_detect_models, io_bind, emit, lift, tags_url.
  rewrite Hget. cbv zeta. rewrite Hstatus, Hjson. simpl.
  repeat split.
  - intros d -> Hmodels. simpl. rewrite Hmodels. reflexivity.
  - intros before names entry after Hmodels Hbefore Hname.
    rewrite Hmodels. simpl.
    rewrite (for_each_first_raise (fun tag => getitem tag "name")
               before names (VDict entry) after (KeyError "name") Hbefore).
    + reflexivity.
    + simpl. rewrite Hname. reflexivity.
  - intros tags names Hmodels H. rewrite Hmodels in H. simpl in H.
    exact (for_each_length _ _ _ H).
Qed.

(** ** Instances of the further properties *)

Lemma response_only_after_success_witness :
  exists messages,
    convert_messages Sample.adapter Sample.hello = Ok messages /\
    fst (chat Sample.plain_server Sample.adapter Sample.hello) =
      [Post "http://localhost:11434/api/chat"
         (request_data Sample.hello messages)
         [("Content-Type", "application/json")]].
Proof.
  destruct (response_only_after_success Sample.plain_server Sample.adapter
              Sample.hello Sample.plain_response eq_refl)
    as [messages [response [response_data [Hmap [_ [_ [_ [_ Htrace]]]]]]]].
  exists messages. split; [exact Hmap | exact Htrace].
Defined.

Lemma returned_response_fixed_fields_witness :
  LLMChatResponse.model Sample.plain_response = LLMChatRequest.model Sample.hello /\
  Message.role (LLMChatResponse.message Sample.plain_response) = "assistant" /\
  Message.finish_reason (LLMChatResponse.message Sample.plain_response) = "stop" /\
  Message.tool_calls (LLMChatResponse.message Sample.plain_response) = None.
Proof.
  exact (returned_response_fixed_fields Sample.plain_server Sample.adapter
           Sample.hello Sample.plain_response eq_refl).
Defined.

Lemma returned_usage_adds_up_witness :
  LLMChatResponse.usage Sample.plain_response =
    {| Usage.prompt_tokens := 5;
       Usage.completion_tokens := 10;
       Usage.total_tokens := 5 + 10 |}.
Proof.
  destruct (returned_usage_adds_up Sample.plain_server Sample.adapter
              Sample.hello Sample.plain_response eq_refl)
    as [messages [response [response_data [Hpost [Hjson [_ Husage]]]]]].
  injection Hpost as <-. injection Hjson as <-.
  exact (proj1 (Husage 5 10 eq_refl eq_refl)).
Defined.

Lemma undecodable_body_reraised_witness :
  chat
    (Sample.replies
       (Sample.answer None "<html>" (Raise (Raised "Expecting value"))))
    Sample.adapter Sample.hello =
  ([Post "http://localhost:11434/api/chat"
      (request_data Sample.hello [Sample.hello_entry])
      [("Content-Type", "application/json")];
    Printed "API Response: <html>"],
   Raise (Raised "Expecting value")).
Proof.
  exact (undecodable_body_reraised
           (Sample.replies
              (Sample.answer None "<html>" (Raise (Raised "Expecting value"))))
           Sample.adapter Sample.hello [Sample.hello_entry]
           (Sample.answer None "<html>" (Raise (Raised "Expecting value")))
           (Raised "Expecting value")
           eq_refl eq_refl eq_refl eq_refl).
Defined.

Lemma errors_outside_try_not_printed_witness :
  chat Sample.plain_server Sample.adapter
    (Sample.request [Sample.user [LLMChatImageContent "m1"]]) =
    ([], Raise TypeError)
  /\ chat Sample.unreachable Sample.adapter Sample.hello =
     ([Post "http://localhost:11434/api/chat"
         (request_data Sample.hello [Sample.hello_entry])
         [("Content-Type", "application/json")]],
      Raise (Raised "connection refused"))
  /\ chat (Sample.replies (Sample.answer None "" (Ok Sample.no_eval_count)))
       Sample.adapter Sample.hello =
     ([Post "http://localhost:11434/api/chat"
         (request_data Sample.hello [Sample.hello_entry])
         [("Content-Type", "application/json")]],
      Raise (KeyError "eval_count")).
Proof.
  split; [|split].
  - exact (proj1 (errors_outside_try_not_printed Sample.plain_server
                    Sample.adapter
                    (Sample.request [Sample.user [LLMChatImageContent "m1"]]))
             TypeError eq_refl).
  - exact (proj1 (proj2 (errors_outside_try_not_printed Sample.unreachable
                           Sample.adapter Sample.hello)
                    [Sample.hello_entry] eq_refl)
             (Raised "connection refused") eq_refl).
  - exact (proj2 (proj2 (errors_outside_try_not_printed
                           (Sample.replies
                              (Sample.answer None "" (Ok Sample.no_eval_count)))
                           Sample.adapter Sample.hello)
                    [Sample.hello_entry] eq_refl)
             (Sample.answer None "" (Ok Sample.no_eval_count))
             Sample.no_eval_count (KeyError "eval_count")
             eq_refl eq_refl eq_refl eq_refl).
Defined.

Lemma content_text_then_tool_calls_witness :
  exists calls m,
    getitem Sample.two_calls "message" = Ok (VDict m) /\
    [LLMChatTextContent "";
     LLMToolCallContent "get_weather" (VDict [("city", VStr "Paris")]);
     LLMToolCallContent "get_time" VNone] =
      LLMChatTextContent
        (match lookup "content" m with Some (VStr s) => s | _ => "" end)
      :: calls /\
    forallb is_tool_call calls = true /\
    (forall entries,
       lookup "tool_calls" m = Some (VList entries) ->
       List.length calls = List.length entries) /\
    (lookup "tool_calls" m = None \/ lookup "tool_calls" m = Some VNone ->
     calls = []).
Proof.
  exact (content_text_then_tool_calls Sample.two_calls
           [LLMChatTextContent "";
            LLMToolCallContent "get_weather" (VDict [("city", VStr "Paris")]);
            LLMToolCallContent "get_time" VNone]
           eq_refl).
Defined.

Lemma malformed_tool_call_raises_witness :
  convert_llm_response Sample.bad_calls = Raise (KeyError "name") /\
  resolve_tool_calls_form_content Sample.bad_calls = Raise (KeyError "name").
Proof.
  apply (malformed_tool_call_raises Sample.bad_calls
           [("tool_calls", VList [Sample.weather_call; Sample.nameless_call])]
           [("function", VDict [])]
           [Sample.weather_call] [] "name").
  - reflexivity.
  - left. reflexivity.
  - reflexivity.
  - constructor; [|constructor].
    exists "get_weather", (VDict [("city", VStr "Paris")]).
    exists [("function",
             VDict [("name", VStr "get_weather");
                    ("arguments", VDict [("city", VStr "Paris")])])].
    exists [("name", VStr "get_weather");
            ("arguments", VDict [("city", VStr "Paris")])].
    split; [reflexivity|]. split; [reflexivity|]. split; [reflexivity|].
    split; [reflexivity|]. right. exists [("city", VStr "Paris")]. reflexivity.
  - right. exists []. repeat split.
Defined.

Lemma missing_message_raises_witness :
  chat (Sample.replies
          (Sample.answer None "" (Ok (VDict [("error", VStr "model not found")]))))
    Sample.adapter Sample.hello =
  ([Post "http://localhost:11434/api/chat"
      (request_data Sample.hello [Sample.hello_entry])
      [("Content-Type", "application/json")]],
   Raise (KeyError "message")).
Proof.
  exact (missing_message_raises
           (Sample.replies
              (Sample.answer None ""
                 (Ok (VDict [("error", VStr "model not found")]))))
           Sample.adapter Sample.hello [Sample.hello_entry]
           (Sample.answer None "" (Ok (VDict [("error", VStr "model not found")])))
           [("error", VStr "model not found")]
           eq_refl eq_refl eq_refl eq_refl eq_refl).
Defined.

Lemma plain_answer_returned_witness :
  chat Sample.plain_server Sample.adapter Sample.hello =
  ([Post "http://localhost:11434/api/chat"
      (request_data Sample.hello [Sample.hello_entry])
      [("Content-Type", "application/json")]],
   Ok Sample.plain_response).
Proof.
  exact (plain_answer_returned Sample.plain_server Sample.adapter Sample.hello
           [Sample.hello_entry] (Sample.answer None "" (Ok Sample.plain))
           [("message", VDict [("content", VStr "hello")]);
            ("prompt_eval_count", VInt 5);
            ("eval_count", VInt 10)]
           [("content", VStr "hello")] "hello" 5 10
           eq_refl eq_refl eq_refl eq_refl eq_refl eq_refl
           (or_introl eq_refl) eq_refl eq_refl).
Defined.

Lemma posted_payload_fields_witness :
  exists top,
    request_data Sample.hello [Sample.hello_entry] = VDict top /\
    lookup "messages" top = Some (VList [Sample.hello_entry]) /\
    lookup "stream" top = Some (VBool false) /\
    lookup "model" top = Some (VStr "llama3").
Proof.
  destruct (posted_payload_fields Sample.plain_server Sample.adapter Sample.hello
              "http://localhost:11434/api/chat"
              (request_data Sample.hello [Sample.hello_entry])
              [("Content-Type", "application/json")]
              (or_introl eq_refl))
    as [_ [_ [top [messages [Htop [Hmap [Hmessages [Hstream Hmodel]]]]]]]].
  exists top. split; [exact Htop|].
  injection Hmap as <-.
  split; [exact Hmessages|]. split; [exact Hstream|].
  apply Hmodel. discriminate.
Defined.

Lemma set_options_kept_witness :
  exists top options,
    request_data Sample.tuned [Sample.hello_entry] = VDict top /\
    lookup "options" top = Some (VDict options) /\
    lookup "temperature" options = Some (VInt 1) /\
    lookup "top_p" options = Some (VInt 1) /\
    lookup "num_predict" options = Some (VInt 128) /\
    lookup "stop" options = Some (VList [VStr "END"]) /\
    lookup "tools" options = Some (VList [VDict [("name", VStr "get_time")]]).
Proof.
  destruct (set_options_kept Sample.plain_server Sample.adapter Sample.tuned
              "http://localhost:11434/api/chat"
              (request_data Sample.tuned [Sample.hello_entry])
              [("Content-Type", "application/json")]
              (or_introl eq_refl))
    as [top [options [Htop [Hoptions [Ht [Hp [Hn [Hs Htools]]]]]]]].
  exists top, options.
  split; [exact Htop|]. split; [exact Hoptions|].
  split; [apply Ht; discriminate|].
  split; [apply Hp; discriminate|].
  split; [apply Hn; discriminate|].
  split; [apply Hs; discriminate|].
  exact (Htools _ _ eq_refl).
Defined.

Lemma media_ids_resolved_in_order_witness :
  Forall2 (fun media_id payload => Sample.partial_media media_id = Ok payload)
    ["m1"; "m3"] ["b64:m1"; "b64:m3"]
  /\ resolve_media_ids ["m1"; "m2"; "m3"] Sample.partial_media =
     Raise (Raised "media not found").
Proof.
  split.
  - apply (proj1 (media_ids_resolved_in_order ["m1"; "m3"] Sample.partial_media)).
    reflexivity.
  - apply (proj2 (media_ids_resolved_in_order ["m1"; "m2"; "m3"]
                    Sample.partial_media)
             ["m1"] "m2" ["m3"] ["b64:m1"] (Raised "media not found")).
    + reflexivity.
    + constructor; [reflexivity | constructor].
    + reflexivity.
Defined.

Lemma first_image_ends_mapping_witness :
  message_body Sample.adapter []
    (Sample.user [LLMChatTextContent "look"; LLMChatImageContent "m1"]) =
    Raise TypeError
  /\ message_body Sample.partial_adapter []
       (Sample.user [LLMChatTextContent "look"; LLMChatImageContent "m2"]) =
     Raise (Raised "media not found").
Proof.
  split.
  - exact (first_image_ends_mapping Sample.adapter []
             (Sample.user [LLMChatTextContent "look"; LLMChatImageContent "m1"])
             [LLMChatTextContent "look"] [] "m1" eq_refl eq_refl eq_refl).
  - exact (first_image_ends_mapping Sample.partial_adapter []
             (Sample.user [LLMChatTextContent "look"; LLMChatImageContent "m2"])
             [LLMChatTextContent "look"] [] "m2" eq_refl eq_refl eq_refl).
Defined.

Lemma messages_mapped_one_by_one_witness :
  convert_messages Sample.adapter
    (Sample.request
       [Sample.user [LLMChatTextContent "a"]; Sample.user [LLMChatTextContent "b"]]) =
  (out1 <- convert_messages Sample.adapter
             (Sample.request [Sample.user [LLMChatTextContent "a"]]) ;;
   out2 <- convert_messages Sample.adapter
             (Sample.request [Sample.user [LLMChatTextContent "b"]]) ;;
   Ok (out1 ++ out2)).
Proof.
  exact (messages_mapped_one_by_one Sample.adapter
           (Sample.request
              [Sample.user [LLMChatTextContent "a"];
               Sample.user [LLMChatTextContent "b"]])
           (Sample.request [Sample.user [LLMChatTextContent "a"]])
           (Sample.request [Sample.user [LLMChatTextContent "b"]])
           eq_refl).
Defined.

Lemma single_text_messages_one_to_one_witness :
  convert_messages Sample.adapter
    (Sample.request
       [ {| LLMChatMessage.role := "system";
            LLMChatMessage.content := [LLMChatTextContent "be brief"] |};
         {| LLMChatMessage.role := "user";
            LLMChatMessage.content := [LLMChatTextContent "hi"] |} ]) =
  Ok [VDict [("role", VStr "system"); ("content", VStr "be brief")];
      VDict [("role", VStr "user"); ("content", VStr "hi")]].
Proof.
  apply (single_text_messages_one_to_one Sample.adapter
           (Sample.request
              [ {| LLMChatMessage.role := "system";
                   LLMChatMessage.content := [LLMChatTextContent "be brief"] |};
                {| LLMChatMessage.role := "user";
                   LLMChatMessage.content := [LLMChatTextContent "hi"] |} ])
           [("system", "be brief"); ("user", "hi")]).
  - reflexivity.
  - intros p [<- | [<- | []]]; reflexivity.
Defined.

Lemma tool_call_parts_not_sent_witness :
  message_body Sample.adapter []
    (Sample.user
       [LLMToolCallContent "get_time" VNone; LLMChatTextContent "hi";
        LLMToolCallContent "get_weather" VNone]) =
  message_body Sample.adapter [] (Sample.user [LLMChatTextContent "hi"]).
Proof.
  exact (tool_call_parts_not_sent Sample.adapter []
           (Sample.user
              [LLMToolCallContent "get_time" VNone; LLMChatTextContent "hi";
               LLMToolCallContent "get_weather" VNone])
           eq_refl).
Defined.

Lemma payload_entries_shape_witness :
  exists msg fields,
    In msg (LLMChatRequest.messages Sample.hello) /\
    Sample.hello_entry = VDict fields /\
    lookup "role" fields = Some (VStr (LLMChatMessage.role msg)) /\
    lookup "images" fields = None.
Proof.
  pose proof (payload_entries_shape Sample.adapter Sample.hello
                [Sample.hello_entry] eq_refl) as H.
  apply Forall_inv in H.
  destruct H as [msg [fields [Hin [Hentry [Hrole [Himages _]]]]]].
  exists msg, fields. repeat split; assumption.
Defined.

Lemma model_discovery_one_get_witness :
  auto_detect_models (fun _ => Raise (Raised "connection refused")) Sample.adapter =
    ([HttpGet "http://localhost:11434/api/tags"],
     Raise (Raised "connection refused"))
  /\ snd (auto_detect_models
            (fun _ => Ok (Sample.answer None "<html>" (Raise (Raised "Expecting value"))))
            Sample.adapter) =
     Raise (Raised "Expecting value").
Proof.
  split.
  - apply injective_projections.
    + exact (proj1 (model_discovery_one_get
                      (fun _ => Raise (Raised "connection refused"))
                      Sample.adapter)).
    + exact (proj1 (proj2 (model_discovery_one_get
                             (fun _ => Raise (Raised "connection refused"))
                             Sample.adapter))
               (Raised "connection refused") eq_refl).
  - exact (proj2 (proj2 (model_discovery_one_get
                           (fun _ => Ok (Sample.answer None "<html>"
                                           (Raise (Raised "Expecting value"))))
                           Sample.adapter))
             (Sample.answer None "<html>" (Raise (Raised "Expecting value")))
             (Raised "Expecting value") eq_refl eq_refl eq_refl).
Defined.

Lemma model_discovery_shape_errors_witness :
  snd (auto_detect_models
         (fun _ => Ok (Sample.answer None "" (Ok (VDict []))))
         Sample.adapter) = Raise (KeyError "models")
  /\ snd (auto_detect_models
            (fun _ => Ok (Sample.answer None "" (Ok Sample.bad_tags)))
            Sample.adapter) = Raise (KeyError "name")
  /\ List.length [VStr "llama3"] =
     List.length [VDict [("name", VStr "llama3")]].
Proof.
  split; [|split].
  - exact (proj1 (model_discovery_shape_errors
                    (fun _ => Ok (Sample.answer None "" (Ok (VDict []))))
                    Sample.adapter
                    (Sample.answer None "" (Ok (VDict []))) (VDict [])
                    eq_refl eq_refl eq_refl)
             [] eq_refl eq_refl).
  - apply (proj1 (proj2 (model_discovery_shape_errors
                           (fun _ => Ok (Sample.answer None "" (Ok Sample.bad_tags)))
                           Sample.adapter
                           (Sample.answer None "" (Ok Sample.bad_tags))
                           Sample.bad_tags
                           eq_refl eq_refl eq_refl))
             [VDict [("name", VStr "llama3")]] [VStr "llama3"]
             [("size", VInt 1)] []).
    + reflexivity.
    + constructor; [reflexivity | constructor].
    + reflexivity.
  - exact (proj2 (proj2 (model_discovery_shape_errors
                           (fun _ => Ok (Sample.answer None "" (Ok Sample.tags)))
                           Sample.adapter
                           (Sample.answer None "" (Ok Sample.tags))
                           Sample.tags
                           eq_refl eq_refl eq_refl))
             [VDict [("name", VStr "llama3")]] [VStr "llama3"]
             eq_refl eq_refl).
Defined.
